(** * libbb/executable.c: PATH resolution and exec dispatch

    A shallow embedding of busybox's [libbb/executable.c]:
    [file_is_executable], [find_executable], [executable_exists],
    [BB_EXECVP], [BB_EXECVPE] and [BB_EXECVP_or_die], with the properties their
    specification states of them.

    Conventions of the embedding.
    - A C string is the list of its characters before the terminating NUL.
    - A [const char *] is either NULL or a buffer together with an offset
      into it ([ptr]); dereferencing the offset equal to the length reads
      the terminating NUL.
    - The operating system (file system, environment block, [execvp]) is a
      record of oracles [os]; the process, which the code changes, is the
      record [proc]: [errno], [xfunc_error_retval] and the chronological
      trace of the library calls it made.
    - [xasprintf] and [xstrdup] abort the process when memory is exhausted;
      the embedding assumes they succeed.
    - [BB_EXECVPE] rebuilds the environment block before calling
      [BB_EXECVP]; the block is a list of ["NAME=value"] strings and the
      system is taken as a function of it. *)

From Equations Require Import Equations.
From Stdlib Require Import List ZArith Ascii String Bool Arith Lia.
Import ListNotations.

Local Open Scope Z_scope.

(** ** C strings and pointers *)

Definition cstr := list ascii.

(** [cs "abc"] is the C string literal ["abc"]. *)
Definition cs (s : string) : cstr := list_ascii_of_string s.

Record ptr := mkptr { buf : cstr; off : nat }.

(** [*p]: [None] stands for the terminating NUL. *)
Definition deref (p : ptr) : option ascii := nth_error (buf p) (off p).

(** The C string [p] points to. *)
Definition str_at (p : ptr) : cstr := skipn (off p) (buf p).

Definition cstr_eqb (a b : cstr) : bool :=
  if list_eq_dec ascii_dec a b then true else false.

(** ** [int] *)

Definition INT_MAX : Z := 2147483647.

(** Conversion of a [ptrdiff_t] to [int]: reduction modulo 2^32 into
    [-2^31, 2^31). *)
Definition to_int (z : Z) : Z := (z + 2147483648) mod 4294967296 - 2147483648.

(** ** Constants of the system headers *)

Definition X_OK : Z := 1.
Definition ENOENT : Z := 2.
Definition S_IFMT : Z := 61440.   (* 0170000 *)
Definition S_IFREG : Z := 32768.  (* 0100000 *)
Definition S_IFDIR : Z := 16384.  (* 0040000 *)
Definition S_IFCHR : Z := 8192.   (* 0020000 *)
Definition S_IFBLK : Z := 24576.  (* 0060000 *)

Definition S_ISREG (m : Z) : bool := Z.land m S_IFMT =? S_IFREG.
Definition S_ISDIR (m : Z) : bool := Z.land m S_IFMT =? S_IFDIR.
Definition S_ISCHR (m : Z) : bool := Z.land m S_IFMT =? S_IFCHR.
Definition S_ISBLK (m : Z) : bool := Z.land m S_IFMT =? S_IFBLK.

(** ** The operating system *)

(** Outcome of a system call: success with a value, or [-1] with [errno]
    set to [e]. *)
Inductive sysres (A : Type) : Type :=
| Ok (a : A)
| Fail (e : Z).
Arguments Ok {A} a.
Arguments Fail {A} e.

Record stat_buf := mkstat { st_mode : Z }.

Record os := mkos {
  os_access : cstr -> Z -> sysres unit;
  os_stat : cstr -> sysres stat_buf;
  os_getenv : cstr -> option cstr;
  (** [None]: the process image was replaced; [Some e]: failure [e]. *)
  os_execvp : cstr -> list cstr -> option Z
}.

(** ** The process *)

Inductive event :=
| EvAccess (name : cstr) (mode : Z)
| EvStat (name : cstr)
| EvAlloc (s : cstr)
| EvFree (s : cstr)
| EvExecvp (file : cstr) (argv : list cstr).

Record proc := mkproc {
  errno : Z;
  xfunc_error_retval : Z;
  trace : list event
}.

Definition log (ev : event) (st : proc) : proc :=
  mkproc (errno st) (xfunc_error_retval st) (trace st ++ [ev]).

Definition set_errno (e : Z) (st : proc) : proc :=
  mkproc e (xfunc_error_retval st) (trace st).

Definition set_xfunc_error_retval (v : Z) (st : proc) : proc :=
  mkproc (errno st) v (trace st).

(** ** libc calls *)

Section Libc.

Variable sys : os.

Definition access (name : cstr) (mode : Z) (st : proc) : sysres unit * proc :=
  let st := log (EvAccess name mode) st in
  match os_access sys name mode with
  | Ok u => (Ok u, st)
  | Fail e => (Fail e, set_errno e st)
  end.

Definition stat (name : cstr) (st : proc) : sysres stat_buf * proc :=
  let st := log (EvStat name) st in
  match os_stat sys name with
  | Ok s => (Ok s, st)
  | Fail e => (Fail e, set_errno e st)
  end.

Definition getenv (name : cstr) : option ptr :=
  match os_getenv sys name with
  | Some v => Some (mkptr v 0)
  | None => None
  end.

(** [free(p)]; [free(NULL)] does nothing. *)
Definition free (p : option cstr) (st : proc) : proc :=
  match p with
  | Some s => log (EvFree s) st
  | None => st
  end.

Definition xstrdup (s : cstr) (st : proc) : cstr * proc :=
  (s, log (EvAlloc s) st).

(** [xasprintf("%.*s/%s", sz, s, name)]: a negative precision counts as
    omitted. *)
Definition xasprintf_dir_name (sz : Z) (s name : cstr) (st : proc)
  : cstr * proc :=
  let r := (if sz <? 0 then s else firstn (Z.to_nat sz) s)
             ++ "/"%char :: name in
  (r, log (EvAlloc r) st).

(** Length of the longest prefix of [s] free of [c]. *)
Fixpoint span (c : ascii) (s : cstr) : nat :=
  match s with
  | [] => O
  | a :: s' => if Ascii.eqb a c then O else S (span c s')
  end.

(** [strchrnul(p, c)], as an offset into the buffer of [p]. *)
Definition strchrnul (p : ptr) (c : ascii) : ptr :=
  mkptr (buf p) (off p + span c (str_at p)).

(** ** [file_is_executable] *)

Definition file_is_executable (name : cstr) (st : proc) : bool * proc :=
  match access name X_OK st with
  | (Ok _, st1) =>
      match stat name st1 with
      | (Ok s, st2) => (S_ISREG (st_mode s), st2)
      | (Fail _, st2) => (false, st2)
      end
  | (Fail _, st1) => (false, st1)
  end.

End Libc.

(** ** [find_executable] *)

(** A value together with the equation that names it, for the [with]
    clauses whose branches need to remember what was matched. *)
Definition inspect {A : Type} (a : A) : {b : A | a = b} := exist _ a eq_refl.

Section Resolver.

Variable sys : os.
Variable name : cstr.

(** Lines 44-57: the candidate allocated for the component that starts at
    [p] and ends at [e]. *)
Definition candidate (p e : ptr) (st : proc) : cstr * proc :=
  let sz := to_int (Z.of_nat (off e) - Z.of_nat (off p)) in
  if negb (sz =? 0)
  then xasprintf_dir_name sz (str_at p) name st
  else xstrdup name st.

(** Line 59: [*end ? end+1 : NULL]. *)
Definition next_cursor (e : ptr) : option ptr :=
  match deref e with
  | Some _ => Some (mkptr (buf e) (off e + 1))
  | None => None
  end.

(** The [while (1)] loop, from the component at offset [o] of [PATH].
    [Some (r, c)]: line 60 returned [r] after storing [c] in [*PATHp];
    [None]: line 64 returned NULL. *)
Equations? find_loop (PATH : cstr) (o : nat) (st : proc)
  : option (cstr * option ptr) * proc by wf (List.length PATH - o)%nat lt :=
find_loop PATH o st with inspect (strchrnul (mkptr PATH o) ":"%char) := {
  | exist _ e He with candidate (mkptr PATH o) e st := {
    | (p, st1) with file_is_executable sys p st1 := {
      | (true, st2) := (Some (p, next_cursor e), st2);
      | (false, st2) with inspect (deref e) := {
        | exist _ None _ := (None, free (Some p) st2);
        | exist _ (Some _) Hd := find_loop PATH (off e + 1) (free (Some p) st2)
        } } } }.
Proof.
  unfold deref, strchrnul, str_at in *. cbn [buf off] in *.
  assert (Hlt : (o + span ":"%char (skipn o PATH) < List.length PATH)%nat).
  { apply nth_error_Some. rewrite Hd. discriminate. }
  lia.
Qed.

(** [char *find_executable(const char *name, const char **PATHp)]: the
    result is the returned string (or NULL) and the content of [*PATHp]
    on return. *)
Definition find_executable (PATHp : option ptr) (st : proc)
  : (option cstr * option ptr) * proc :=
  match PATHp with
  | None => ((None, PATHp), st)
  | Some p =>
      match find_loop (buf p) (off p) st with
      | (Some (r, c), st') => ((Some r, c), st')
      | (None, st') => ((None, PATHp), st')
      end
  end.

(** ** [executable_exists] *)

Definition executable_exists (st : proc) : bool * proc :=
  let path := getenv sys (cs "PATH") in
  let '((ret, _), st1) := find_executable path st in
  let st2 := free ret st1 in
  (match ret with Some _ => true | None => false end, st2).

End Resolver.

(** ** Calls that may not return *)

(** How the process stopped running this code. *)
Inductive halt :=
| ImageReplaced (file : cstr) (argv : list cstr)
| AppletRan (applet : Z) (name : cstr) (argv : list cstr)
| Died (status : Z) (msg : cstr)
| Undefined.

Inductive result (A : Type) : Type :=
| Ret (a : A)
| Halt (h : halt).
Arguments Ret {A} a.
Arguments Halt {A} h.

(** A call: it changes the process and either returns or halts it. *)
Definition M (A : Type) : Type := proc -> result A * proc.

Definition ret {A : Type} (a : A) : M A := fun st => (Ret a, st).

Definition bind {A B : Type} (m : M A) (k : A -> M B) : M B :=
  fun st =>
    match m st with
    | (Ret a, st') => k a st'
    | (Halt h, st') => (Halt h, st')
    end.

Notation "x <- m ;; k" := (bind m (fun x => k))
  (at level 61, m at next level, right associativity).
Notation "m ;; k" := (bind m (fun _ => k))
  (at level 61, right associativity).

(** An expression statement: the value is dropped. *)
Definition discard {A : Type} (m : M A) : M unit := m ;; ret tt.

Definition get_errno : M Z := fun st => (Ret (errno st), st).
Definition assign_errno (e : Z) : M unit := fun st => (Ret tt, set_errno e st).
Definition assign_xfunc_error_retval (v : Z) : M unit :=
  fun st => (Ret tt, set_xfunc_error_retval v st).

(** ** [BB_EXECVP] and [BB_EXECVP_or_die] *)

(** The build-time switches the code tests. *)
Record config := mkconfig {
  ENABLE_FEATURE_PREFER_APPLETS : bool;
  ENABLE_FEATURE_FORCE_NOEXEC : bool;
  ENABLE_FEATURE_FORCE_APPLETS : bool
}.

(** The applet registry and the path of the running binary, declared in
    [libbb.h] and taken as parameters. *)
Record applets := mkapplets {
  find_applet_by_name : cstr -> Z;
  APPLET_IS_NOEXEC : Z -> bool;
  bb_busybox_exec_path : cstr
}.

Section Dispatcher.

Variable sys : os.
Variable cfg : config.
Variable tab : applets.

(** [execvp(file, argv)]: returns [-1] with [errno] set, or does not
    return. *)
Definition execvp (file : cstr) (argv : list cstr) : M Z :=
  fun st =>
    let st := log (EvExecvp file argv) st in
    match os_execvp sys file argv with
    | None => (Halt (ImageReplaced file argv), st)
    | Some e => (Ret (-1), set_errno e st)
    end.

(** Modelled from the spec: [run_noexec_applet_and_exit], the external
    noexec-applet runner, which "does not return to the dispatcher (it
    terminates the process itself)". *)
Definition run_noexec_applet_and_exit (applet : Z) (name : cstr)
  (argv : list cstr) : M unit :=
  fun st => (Halt (AppletRan applet name argv), st).

(** Modelled from the spec: [bb_perror_msg_and_die], the external
    "diagnostic-emit-and-terminate(message, exit_code)"; the exit code is
    the one the caller stored in [xfunc_error_retval]. *)
Definition bb_perror_msg_and_die (msg : cstr) : M unit :=
  fun st => (Halt (Died (xfunc_error_retval st) msg), st).

Definition BB_EXECVP (file : cstr) (argv : list cstr) : M Z :=
  if ENABLE_FEATURE_PREFER_APPLETS cfg then
    let applet := find_applet_by_name tab file in
    if applet >=? 0 then
      (if ENABLE_FEATURE_FORCE_NOEXEC cfg || APPLET_IS_NOEXEC tab applet
       then run_noexec_applet_and_exit applet file argv
       else discard (execvp (bb_busybox_exec_path tab) argv)) ;;
      execvp file argv
    else if ENABLE_FEATURE_FORCE_APPLETS cfg then
      (* set errno accordingly *)
      assign_errno ENOENT ;;
      ret (-1)
    else
      execvp file argv
  else
    execvp file argv.

(** [argv[0]] of an empty vector is its NULL terminator, which the code
    passes on as a string: undefined behaviour. *)
Definition BB_EXECVP_or_die (argv : list cstr) : M unit :=
  match argv with
  | argv0 :: _ =>
      discard (BB_EXECVP argv0 argv) ;;
      (* SUSv3-mandated exit codes *)
      e <- get_errno ;;
      assign_xfunc_error_retval (if e =? ENOENT then 127 else 126) ;;
      bb_perror_msg_and_die (cs "can't execute '" ++ argv0 ++ cs "'")
  | [] => fun st => (Halt Undefined, st)
  end.

End Dispatcher.

(** ** The specification's vocabulary *)

(** The probe as a function of the file system alone: accessible for
    execution, and a stat that succeeds on a regular file. *)
Definition is_executable (sys : os) (name : cstr) : bool :=
  match os_access sys name X_OK, os_stat sys name with
  | Ok _, Ok s => S_ISREG (st_mode s)
  | _, _ => false
  end.

(** The components of a search path: the substrings between delimiters. A
    path of [n] delimiters has [n + 1] components, any of them possibly
    empty. *)
Fixpoint components (s : cstr) : list cstr :=
  match s with
  | [] => [[]]
  | a :: s' =>
      if Ascii.eqb a ":" then [] :: components s'
      else match components s' with
           | c :: l => (a :: c) :: l
           | [] => [[a]]
           end
  end.

(** The Candidate Path of a component: [component + "/" + name], or the
    bare name for an empty component. *)
Definition candidate_path (name c : cstr) : cstr :=
  match c with
  | [] => name
  | _ :: _ => c ++ "/"%char :: name
  end.

(** Where line 59 leaves [*PATHp]: after the delimiter that ends the
    component starting at [o], at the head of the components [post] that
    follow it, or NULL when nothing follows. *)
Definition cursor_after (PATH : cstr) (o : nat) (c : option ptr)
  (post : list cstr) : Prop :=
  match c with
  | None => post = []
  | Some q =>
      buf q = PATH /\
      (o < off q)%nat /\ (off q <= List.length PATH)%nat /\
      components (str_at q) = post
  end.

(** ** Sample environments *)

Module Sample.

Definition ENOENT_everywhere : os := mkos
  (fun _ _ => Fail ENOENT) (fun _ => Fail ENOENT) (fun _ => None)
  (fun _ _ => Some ENOENT).

(** Mode 0100755: a regular file, executable by all. *)
Definition rwxr_xr_x : stat_buf := mkstat 33261.

(** Mode 040755: a directory, searchable by all. *)
Definition drwxr_xr_x : stat_buf := mkstat 16877.

(** A system whose only file is the executable [file], whose only
    environment variable is [PATH = path], and where every [execvp]
    fails with [err]. *)
Definition with_file (file path : cstr) (err : Z) : os := mkos
  (fun n _ => if cstr_eqb n file then Ok tt else Fail ENOENT)
  (fun n => if cstr_eqb n file then Ok rwxr_xr_x else Fail ENOENT)
  (fun v => if cstr_eqb v (cs "PATH") then Some path else None)
  (fun _ _ => Some err).

(** A system whose only entry is the directory [dir]. *)
Definition with_dir (dir : cstr) : os := mkos
  (fun n _ => if cstr_eqb n dir then Ok tt else Fail ENOENT)
  (fun n => if cstr_eqb n dir then Ok drwxr_xr_x else Fail ENOENT)
  (fun _ => None)
  (fun _ _ => Some ENOENT).

(** A system with no file at all, where every [execvp] succeeds. *)
Definition exec_succeeds : os := mkos
  (fun _ _ => Fail ENOENT) (fun _ => Fail ENOENT) (fun _ => None)
  (fun _ _ => None).

Definition EACCES : Z := 13.

Definition start : proc := mkproc 0 0 [].

(** A registry with the single applet [ls], number 0, not noexec. *)
Definition registry : applets := mkapplets
  (fun n => if cstr_eqb n (cs "ls") then 0 else -1)
  (fun _ => false)
  (cs "/proc/self/exe").

End Sample.

(** ** [BB_EXECVPE] *)

(** The environment block [environ]: its ["NAME=value"] strings, in
    order. *)
Definition environ := list cstr.

(** [strncmp(e, n, strlen(n)) == 0 && e[strlen(n)] == '=']: the entry [e]
    binds the variable [n]. *)
Fixpoint starts_with (pre e : cstr) : bool :=
  match pre, e with
  | [], _ => true
  | a :: pre', b :: e' => Ascii.eqb a b && starts_with pre' e'
  | _ :: _, [] => false
  end.

Definition binds (n e : cstr) : bool := starts_with (n ++ ["="%char]) e.

(** [getenv(n)] over a block: the value of the first entry binding [n]. *)
Fixpoint env_get (n : cstr) (env : environ) : option cstr :=
  match env with
  | [] => None
  | e :: env' =>
      if binds n e then Some (skipn (List.length n + 1) e)
      else env_get n env'
  end.

Definition clearenv (env : environ) : environ := [].

(** The first entry binding [n] replaced by [s]; [None] when there is
    none. *)
Fixpoint env_replace (n s : cstr) (env : environ) : option environ :=
  match env with
  | [] => None
  | e :: env' =>
      if binds n e then Some (s :: env')
      else match env_replace n s env' with
           | Some r => Some (e :: r)
           | None => None
           end
  end.

(** The string has the form ["NAME=value"]. *)
Definition is_binding (s : cstr) : bool :=
  match nth_error s (span "=" s) with
  | Some _ => true
  | None => false
  end.

(** [putenv(s)], assumed to succeed: ["NAME=value"] replaces the entry of
    [NAME] or is added at the end; a string without ['='] removes the
    variable of that name. *)
Definition putenv (s : cstr) (env : environ) : environ :=
  if is_binding s then
    match env_replace (firstn (span "=" s) s) s env with
    | Some env' => env'
    | None => env ++ [s]
    end
  else filter (fun e => negb (binds s e)) env.

Section DispatcherEnv.

(** [execvp] searches the [PATH] of the environment block and hands the
    block to the new image: the system is taken as a function of it. *)
Variable sys : environ -> os.
Variable cfg : config.
Variable tab : applets.

(** The result is what [BB_EXECVP] gives, and the environment block on
    return. *)
Definition BB_EXECVPE (file : cstr) (argv envp : list cstr) (st : proc)
  (env : environ) : (result Z * proc) * environ :=
  let env := clearenv env in
  let env := fold_left (fun env s => putenv s env) envp env in
  (BB_EXECVP (sys env) cfg tab file argv st, env).

End DispatcherEnv.

(** ** More of the specification's vocabulary *)

(** A search path put together from its components. *)
Fixpoint join (l : list cstr) : cstr :=
  match l with
  | [] => []
  | [c] => c
  | c :: l' => c ++ ":"%char :: join l'
  end.

(** The library calls of one probe of [n]. *)
Definition probe_events (sys : os) (n : cstr) : list event :=
  EvAccess n X_OK ::
  match os_access sys n X_OK with
  | Ok _ => [EvStat n]
  | Fail _ => []
  end.

(** The library calls of a scan over the components [l]: each Candidate
    Path is allocated, probed and, unless it is the match that ends the
    scan, freed. *)
Fixpoint scan_events (sys : os) (name : cstr) (l : list cstr) : list event :=
  match l with
  | [] => []
  | c :: l' =>
      EvAlloc (candidate_path name c) ::
      probe_events sys (candidate_path name c) ++
      (if is_executable sys (candidate_path name c) then []
       else EvFree (candidate_path name c) :: scan_events sys name l')
  end.

(** All the matches of a search path, in order. *)
Definition matches (sys : os) (name s : cstr) : list cstr :=
  filter (is_executable sys) (map (candidate_path name) (components s)).

(** The matches a cursor still has to give. *)
Definition matches_from (sys : os) (name : cstr) (c : option ptr)
  : list cstr :=
  match c with
  | Some q => matches sys name (str_at q)
  | None => []
  end.

(** The heap as a list of live strings: [free] of a string that is not
    live is an error. *)
Fixpoint remove_first (s : cstr) (h : list cstr) : option (list cstr) :=
  match h with
  | [] => None
  | x :: h' =>
      if cstr_eqb x s then Some h'
      else match remove_first s h' with
           | Some r => Some (x :: r)
           | None => None
           end
  end.

Fixpoint heap_after (h : list cstr) (evs : list event)
  : option (list cstr) :=
  match evs with
  | [] => Some h
  | EvAlloc s :: evs' => heap_after (s :: h) evs'
  | EvFree s :: evs' =>
      match remove_first s h with
      | Some h' => heap_after h' evs'
      | None => None
      end
  | _ :: evs' => heap_after h evs'
  end.

(** ** Where a match lies *)

(** The offset at which the component after [pre] starts, when the
    components [pre] and their delimiters follow offset [o]. *)
Definition component_start (o : nat) (pre : list cstr) : nat :=
  (o + list_sum (map (fun x => S (List.length x)) pre))%nat.

(** The string lines 44-57 build for the component that starts at offset
    [q] of [PATH]. *)
Definition built_at (name PATH : cstr) (q : nat) : cstr :=
  fst (candidate name (mkptr PATH q) (strchrnul (mkptr PATH q) ":"%char)
         (mkproc 0 0 [])).

(** [r] is the match of a scan from offset [o] that meets the components
    [pre] first: it is the string built for the component after [pre],
    it passes the probe, and the string built for each component of [pre]
    fails it. *)
Definition first_match (sys : os) (name PATH : cstr) (o : nat)
  (pre : list cstr) (r : cstr) : Prop :=
  r = built_at name PATH (component_start o pre) /\
  is_executable sys r = true /\
  forall k, (k < List.length pre)%nat ->
    is_executable sys
      (built_at name PATH (component_start o (firstn k pre))) = false.

(** The cursor just past the components [upto] and the delimiter that
    ends them: NULL when no component [post] follows. *)
Definition cursor_past (PATH : cstr) (o : nat) (upto post : list cstr)
  : option ptr :=
  match post with
  | [] => None
  | _ :: _ => Some (mkptr PATH (component_start o upto))
  end.

(** * Properties *)

(** ** Strings *)

Lemma span_le c s : (span c s <= List.length s)%nat.
Proof.
  induction s as [|a s IH]; cbn; [lia|].
  destruct (Ascii.eqb a c); lia.
Qed.

Lemma components_not_nil s : components s <> [].
Proof.
  destruct s as [|a s]; cbn; [discriminate|].
  destruct (Ascii.eqb a ":"); [discriminate|].
  destruct (components s); discriminate.
Qed.

(** The first component is what [strchrnul] spans; the others are the
    components of what follows the delimiter, if there is one. *)
Lemma components_span s :
  components s =
  firstn (span ":" s) s ::
  match nth_error s (span ":" s) with
  | Some _ => components (skipn (span ":" s + 1) s)
  | None => []
  end.
Proof.
  induction s as [|a s IH]; cbn; [reflexivity|].
  destruct (Ascii.eqb a ":") eqn:E; cbn; [reflexivity|].
  rewrite IH at 1. reflexivity.
Qed.

Lemma skipn_skipn_add {A} (n m : nat) (l : list A) :
  skipn n (skipn m l) = skipn (m + n) l.
Proof.
  revert l; induction m as [|m IH]; intros l; cbn; [reflexivity|].
  destruct l; [now rewrite skipn_nil|apply IH].
Qed.

Lemma nth_error_skipn_add {A} (n m : nat) (l : list A) :
  nth_error (skipn m l) n = nth_error l (m + n).
Proof.
  revert l; induction m as [|m IH]; intros l; cbn; [reflexivity|].
  destruct l; [now destruct n|apply IH].
Qed.

Lemma to_int_small z : 0 <= z <= INT_MAX -> to_int z = z.
Proof.
  unfold to_int, INT_MAX. intros H. rewrite Z.mod_small; lia.
Qed.

(** ** The probe *)

Lemma S_ISREG_not_other m :
  S_ISDIR m || S_ISCHR m || S_ISBLK m = true -> S_ISREG m = false.
Proof.
  unfold S_ISDIR, S_ISCHR, S_ISBLK, S_ISREG, S_IFDIR, S_IFCHR, S_IFBLK, S_IFREG.
  intros H. apply Z.eqb_neq. intros E. rewrite E in H. discriminate.
Qed.

Section Probe.

Variable sys : os.

Lemma file_is_executable_fst n st :
  fst (file_is_executable sys n st) = is_executable sys n.
Proof.
  unfold file_is_executable, is_executable, access, stat.
  destruct (os_access sys n X_OK); cbn; [|reflexivity].
  destruct (os_stat sys n); reflexivity.
Qed.

(** C6: the probe answers true exactly when [access(name, X_OK)] succeeds
    and [stat] succeeds on a regular file. It always returns a boolean: a
    failure of either call, whatever its [errno], gives false, and so does
    a directory or a device node that passes the access check. *)
Theorem file_is_executable_iff n st :
  (fst (file_is_executable sys n st) = true <->
   os_access sys n X_OK = Ok tt /\
   exists s, os_stat sys n = Ok s /\ S_ISREG (st_mode s) = true) /\
  (forall e, os_access sys n X_OK = Fail e ->
             fst (file_is_executable sys n st) = false) /\
  (forall e, os_stat sys n = Fail e ->
             fst (file_is_executable sys n st) = false) /\
  (forall s, os_stat sys n = Ok s ->
             S_ISDIR (st_mode s) || S_ISCHR (st_mode s) || S_ISBLK (st_mode s)
             = true ->
             fst (file_is_executable sys n st) = false).
Proof.
  rewrite file_is_executable_fst. unfold is_executable.
  repeat split.
  - destruct (os_access sys n X_OK) as [[]|]; [reflexivity|discriminate].
  - destruct (os_access sys n X_OK); [|discriminate].
    destruct (os_stat sys n) as [s|]; [eauto|discriminate].
  - intros [-> (s & -> & Hs)]. exact Hs.
  - intros e ->. reflexivity.
  - intros e ->. now destruct (os_access sys n X_OK).
  - intros s -> Hs. destruct (os_access sys n X_OK); [|reflexivity].
    now apply S_ISREG_not_other.
Qed.

End Probe.

(** ** The resolver *)

Section ResolverFacts.

Variable sys : os.
Variable name : cstr.

(** The loop, as one iteration followed by the rest. *)
Lemma find_loop_eq PATH o st :
  find_loop sys name PATH o st =
  let e := strchrnul (mkptr PATH o) ":" in
  let (p, st1) := candidate name (mkptr PATH o) e st in
  match file_is_executable sys p st1 with
  | (true, st2) => (Some (p, next_cursor e), st2)
  | (false, st2) =>
      match deref e with
      | None => (None, free (Some p) st2)
      | Some _ => find_loop sys name PATH (off e + 1) (free (Some p) st2)
      end
  end.
Proof.
  funelim (find_loop sys name PATH o st); cbv zeta;
    rewrite Heq0, Heq; try reflexivity.
  all: match goal with H : deref _ = _ |- _ => rewrite H end; reflexivity.
Qed.

Lemma candidate_fst p e st st' :
  fst (candidate name p e st) = fst (candidate name p e st').
Proof.
  unfold candidate, xasprintf_dir_name, xstrdup.
  now destruct (negb _).
Qed.

(** Within the range of [int], the candidate the code allocates is the
    Candidate Path of the component that starts at [o]. *)
Lemma candidate_bounded PATH o st :
  Z.of_nat (List.length PATH) <= INT_MAX ->
  fst (candidate name (mkptr PATH o) (strchrnul (mkptr PATH o) ":") st) =
  candidate_path name (firstn (span ":" (skipn o PATH)) (skipn o PATH)).
Proof.
  intros Hb. unfold candidate, strchrnul, str_at. cbn [buf off].
  pose proof (span_le ":" (skipn o PATH)) as Hs.
  pose proof (length_skipn o PATH) as Hk.
  remember (span ":" (skipn o PATH)) as k eqn:Ek.
  replace (Z.of_nat (o + k) - Z.of_nat o) with (Z.of_nat k) by lia.
  rewrite to_int_small by lia.
  destruct k as [|j].
  - reflexivity.
  - cbn [Z.of_nat Z.eqb negb]. unfold xasprintf_dir_name. cbn [fst].
    replace (Z.pos (Pos.of_succ_nat j)) with (Z.of_nat (S j)) by reflexivity.
    destruct (Z.of_nat (S j) <? 0) eqn:E; [apply Z.ltb_lt in E; lia|].
    rewrite Nat2Z.id.
    destruct (firstn (S j) (skipn o PATH)) as [|a l] eqn:Ef; [|reflexivity].
    apply (f_equal (@List.length ascii)) in Ef.
    rewrite length_firstn in Ef. cbn [List.length] in Ef. lia.
Qed.

Lemma cursor_after_mono PATH o o' c post :
  (o <= o')%nat -> cursor_after PATH o' c post -> cursor_after PATH o c post.
Proof.
  unfold cursor_after. destruct c as [q|]; [|trivial].
  intros Ho (Hb & Hq & Hl & Hc). repeat split; trivial; lia.
Qed.

Lemma next_cursor_after PATH o :
  cursor_after PATH o (next_cursor (strchrnul (mkptr PATH o) ":"))
    match nth_error (skipn o PATH) (span ":" (skipn o PATH)) with
    | Some _ => components (skipn (span ":" (skipn o PATH) + 1) (skipn o PATH))
    | None => []
    end.
Proof.
  unfold next_cursor, deref, strchrnul, str_at, cursor_after. cbn [buf off].
  rewrite nth_error_skipn_add.
  destruct (nth_error PATH (o + span ":" (skipn o PATH))) eqn:E;
    [|reflexivity].
  cbn [buf off]. repeat split; [lia| |].
  - assert (o + span ":" (skipn o PATH) < List.length PATH)%nat; [|lia].
    apply nth_error_Some. congruence.
  - rewrite skipn_skipn_add. unfold str_at. cbn [buf off]. do 2 f_equal. lia.
Qed.

(** What a successful scan from offset [o] returns: the path splits into
    components [pre], all tried, the matched component [m], and [post],
    left for the next call. *)
Lemma find_loop_found PATH o st r c st' :
  find_loop sys name PATH o st = (Some (r, c), st') ->
  exists pre m post,
    components (skipn o PATH) = pre ++ m :: post /\
    is_executable sys r = true /\
    cursor_after PATH o c post /\
    (Z.of_nat (List.length PATH) <= INT_MAX ->
     r = candidate_path name m /\
     Forall (fun x => is_executable sys (candidate_path name x) = false) pre).
Proof.
  remember (List.length PATH - o)%nat as n eqn:Hn.
  revert o st Hn. induction n as [n IH] using lt_wf_ind. intros o st Hn.
  rewrite find_loop_eq. cbv zeta.
  pose proof (candidate_bounded PATH o st) as Hc.
  pose proof (next_cursor_after PATH o) as Hnext.
  destruct (candidate name _ _ st) as [p st1]. cbn [fst] in Hc.
  pose proof (file_is_executable_fst sys p st1) as Hp.
  destruct (file_is_executable sys p st1) as [[|] st2]; cbn [fst] in Hp.
  - intros [= <- <- <-].
    exists [], (firstn (span ":" (skipn o PATH)) (skipn o PATH)).
    eexists. split; [apply components_span|].
    split; [now symmetry|]. split; [exact Hnext|].
    intros Hb. split; [now apply Hc|constructor].
  - unfold deref, strchrnul, str_at in *. cbn [buf off] in *.
    rewrite <- nth_error_skipn_add.
    rewrite (components_span (skipn o PATH)).
    destruct (nth_error (skipn o PATH) (span ":" (skipn o PATH))) eqn:E;
      [|discriminate].
    intros H.
    assert (Hlt : (span ":" (skipn o PATH) < List.length (skipn o PATH))%nat).
    { apply nth_error_Some. congruence. }
    rewrite length_skipn in Hlt.
    apply (fun Hm => IH _ Hm _ _ eq_refl) in H; [|lia].
    destruct H as (pre & m & post & Hsplit & Hx & Hcur & Hcand).
    rewrite skipn_skipn_add. rewrite Nat.add_assoc.
    exists (firstn (span ":" (skipn o PATH)) (skipn o PATH) :: pre), m, post.
    split; [cbn; now rewrite Hsplit|]. split; [exact Hx|].
    split; [eapply cursor_after_mono; [|exact Hcur]; lia|].
    intros Hb. destruct (Hcand Hb) as [-> HF]. split; [reflexivity|].
    constructor; [|exact HF]. rewrite <- Hc by exact Hb. now symmetry.
Qed.

(** A scan that returns NULL tried every component. *)
Lemma find_loop_not_found PATH o st st' :
  find_loop sys name PATH o st = (None, st') ->
  Z.of_nat (List.length PATH) <= INT_MAX ->
  Forall (fun x => is_executable sys (candidate_path name x) = false)
    (components (skipn o PATH)).
Proof.
  remember (List.length PATH - o)%nat as n eqn:Hn.
  revert o st Hn. induction n as [n IH] using lt_wf_ind. intros o st Hn.
  rewrite find_loop_eq. cbv zeta.
  pose proof (candidate_bounded PATH o st) as Hc.
  destruct (candidate name _ _ st) as [p st1]. cbn [fst] in Hc.
  pose proof (file_is_executable_fst sys p st1) as Hp.
  destruct (file_is_executable sys p st1) as [[|] st2]; cbn [fst] in Hp;
    [discriminate|].
  unfold deref, strchrnul, str_at in *. cbn [buf off] in *.
  rewrite <- nth_error_skipn_add.
  rewrite (components_span (skipn o PATH)).
  destruct (nth_error (skipn o PATH) (span ":" (skipn o PATH))) eqn:E.
  - intros H Hb.
    assert (Hlt : (span ":" (skipn o PATH) < List.length (skipn o PATH))%nat).
    { apply nth_error_Some. congruence. }
    rewrite length_skipn in Hlt.
    apply (fun Hm => IH _ Hm _ _ eq_refl) in H; [|lia|exact Hb].
    constructor; [rewrite <- Hc by exact Hb; now symmetry|].
    rewrite skipn_skipn_add, Nat.add_assoc. exact H.
  - intros _ Hb. constructor; [|constructor].
    rewrite <- Hc by exact Hb. now symmetry.
Qed.

(** The result of a scan depends on the file system only, not on the
    state of the process. *)
Lemma find_loop_fst PATH o st st' :
  fst (find_loop sys name PATH o st) = fst (find_loop sys name PATH o st').
Proof.
  remember (List.length PATH - o)%nat as n eqn:Hn.
  revert o st st' Hn. induction n as [n IH] using lt_wf_ind.
  intros o st st' Hn.
  rewrite 2 find_loop_eq. cbv zeta.
  pose proof (candidate_fst (mkptr PATH o) (strchrnul (mkptr PATH o) ":")
                st st') as Hc.
  destruct (candidate name _ _ st) as [p st1].
  destruct (candidate name _ _ st') as [p' st1']. cbn [fst] in Hc. subst p'.
  pose proof (file_is_executable_fst sys p st1) as Hp.
  pose proof (file_is_executable_fst sys p st1') as Hp'.
  destruct (file_is_executable sys p st1) as [b st2].
  destruct (file_is_executable sys p st1') as [b' st2'].
  cbn [fst] in *. rewrite <- Hp' in Hp. subst b'.
  destruct b; [reflexivity|].
  destruct (deref _) eqn:E; [|reflexivity].
  unfold deref, strchrnul, str_at in *. cbn [buf off] in *.
  assert (o + span ":" (skipn o PATH) < List.length PATH)%nat.
  { apply nth_error_Some. congruence. }
  eapply IH; [|reflexivity]. lia.
Qed.

Lemma file_is_executable_trace n st st' :
  exists evs,
    trace (snd (file_is_executable sys n st)) = trace st ++ evs /\
    trace (snd (file_is_executable sys n st')) = trace st' ++ evs.
Proof.
  unfold file_is_executable, access, stat.
  destruct (os_access sys n X_OK); cbn.
  - destruct (os_stat sys n); cbn; rewrite <- !app_assoc;
      eexists; split; reflexivity.
  - eexists; split; reflexivity.
Qed.

(** The calls a scan makes depend on the file system only, and there is
    at least one. *)
Lemma find_loop_trace PATH o st st' :
  exists evs,
    evs <> [] /\
    trace (snd (find_loop sys name PATH o st)) = trace st ++ evs /\
    trace (snd (find_loop sys name PATH o st')) = trace st' ++ evs.
Proof.
  remember (List.length PATH - o)%nat as n eqn:Hn.
  revert o st st' Hn. induction n as [n IH] using lt_wf_ind.
  intros o st st' Hn.
  rewrite 2 find_loop_eq. cbv zeta.
  assert (Hc : exists p,
    candidate name (mkptr PATH o) (strchrnul (mkptr PATH o) ":") st
      = (p, log (EvAlloc p) st) /\
    candidate name (mkptr PATH o) (strchrnul (mkptr PATH o) ":") st'
      = (p, log (EvAlloc p) st')).
  { unfold candidate, xasprintf_dir_name, xstrdup.
    destruct (negb _); eexists; split; reflexivity. }
  destruct Hc as (p & -> & ->).
  destruct (file_is_executable_trace p (log (EvAlloc p) st)
              (log (EvAlloc p) st')) as (evs & H1 & H2).
  pose proof (file_is_executable_fst sys p (log (EvAlloc p) st)) as Hp.
  pose proof (file_is_executable_fst sys p (log (EvAlloc p) st')) as Hp'.
  destruct (file_is_executable sys p (log (EvAlloc p) st)) as [b st2].
  destruct (file_is_executable sys p (log (EvAlloc p) st')) as [b' st2'].
  cbn [fst snd] in *. rewrite <- Hp' in Hp. subst b'.
  cbn [log trace] in H1, H2. rewrite <- app_assoc in H1, H2.
  destruct b.
  - exists ([EvAlloc p] ++ evs). cbn [snd].
    split; [discriminate|]. split; assumption.
  - destruct (deref _) eqn:E.
    + unfold deref, strchrnul, str_at in *. cbn [buf off] in *.
      assert (o + span ":" (skipn o PATH) < List.length PATH)%nat.
      { apply nth_error_Some. congruence. }
      destruct (fun Hm => IH _ Hm (o + span ":" (skipn o PATH) + 1)%nat
                  (free (Some p) st2) (free (Some p) st2') eq_refl)
        as (evs' & _ & H1' & H2'); [lia|].
      exists (([EvAlloc p] ++ evs) ++ [EvFree p] ++ evs').
      split; [discriminate|].
      rewrite H1', H2'. cbn [free log trace]. rewrite H1, H2.
      rewrite <- !app_assoc. split; reflexivity.
    + exists (([EvAlloc p] ++ evs) ++ [EvFree p]).
      split; [discriminate|].
      cbn [snd free log trace]. rewrite H1, H2.
      rewrite <- !app_assoc. split; reflexivity.
Qed.


(** C1: a path that [find_executable] returns passes the probe, whatever
    the state of the process when it is probed again. *)
Theorem find_executable_returns_executable PATHp st r c :
  fst (find_executable sys name PATHp st) = (Some r, c) ->
  forall st', fst (file_is_executable sys r st') = true.
Proof.
  unfold find_executable. destruct PATHp as [p|]; [|discriminate].
  destruct (find_loop sys name (buf p) (off p) st) as [[[r' c']|] st1] eqn:E;
    [|discriminate].
  intros [= -> ->] st'. apply find_loop_found in E.
  destruct E as (_ & _ & _ & _ & Hx & _).
  now rewrite file_is_executable_fst.
Qed.

(** C2, amended: when no component matches, [find_executable] returns NULL
    and leaves [*PATHp] as it was on entry (it is written on line 59 only),
    so a later call with it returns NULL again, after the same calls as
    the first. Within the range of [int], NULL means that the Candidate
    Path of every component up to the last failed the probe. *)
Theorem find_executable_not_found_keeps_cursor PATHp st c :
  fst (find_executable sys name PATHp st) = (None, c) ->
  c = PATHp /\
  (forall st',
     fst (find_executable sys name c st') = (None, c) /\
     exists evs,
       trace (snd (find_executable sys name PATHp st)) = trace st ++ evs /\
       trace (snd (find_executable sys name c st')) = trace st' ++ evs /\
       (PATHp <> None -> evs <> [])) /\
  (forall p, PATHp = Some p ->
     Z.of_nat (List.length (buf p)) <= INT_MAX ->
     Forall (fun x => is_executable sys (candidate_path name x) = false)
       (components (str_at p))).
Proof.
  unfold find_executable. destruct PATHp as [p|].
  - pose proof (find_loop_fst (buf p) (off p) st) as Hfst.
    pose proof (find_loop_trace (buf p) (off p) st) as Htr.
    destruct (find_loop sys name (buf p) (off p) st) as [[[r' c']|] st1] eqn:E;
      [discriminate|].
    intros [= <-]. split; [reflexivity|]. split.
    + intros st'. specialize (Hfst st').
      destruct (Htr st') as (evs & Hne & H1 & H2).
      destruct (find_loop sys name (buf p) (off p) st') as [[[r' c']|] st2];
        [discriminate|].
      split; [reflexivity|]. exists evs. cbn [snd] in *. auto.
    + intros p' [= <-] Hb. eapply find_loop_not_found; eassumption.
  - intros [= <-]. split; [reflexivity|]. split; [|intros p [=]].
    intros st'. split; [reflexivity|]. exists []. cbn [snd].
    rewrite !app_nil_r. repeat split. congruence.
Qed.

Lemma built_at_candidate PATH q st :
  fst (candidate name (mkptr PATH q) (strchrnul (mkptr PATH q) ":") st) =
  built_at name PATH q.
Proof. apply candidate_fst. Qed.

Lemma component_start_cons o x pre :
  component_start o (x :: pre) =
  component_start (o + List.length x + 1) pre.
Proof. unfold component_start, list_sum. cbn [map fold_right]. lia. Qed.

Lemma component_start_snoc o pre m :
  component_start o (pre ++ [m]) =
  (component_start o pre + List.length m + 1)%nat.
Proof.
  unfold component_start. rewrite map_app, list_sum_app. cbn [map].
  replace (list_sum [S (List.length m)]) with (S (List.length m))
    by (unfold list_sum; cbn [fold_right]; lia).
  set (t := list_sum _). lia.
Qed.

Lemma length_first_component s :
  List.length (firstn (span ":" s) s) = span ":" s.
Proof. rewrite length_firstn. pose proof (span_le ":" s). lia. Qed.

(** What a successful scan from offset [o] returns, by position: the
    string built for the first component whose built string passes the
    probe, and the cursor just past that component. *)
Lemma find_loop_found_at PATH o st r c st' :
  find_loop sys name PATH o st = (Some (r, c), st') ->
  exists pre m post,
    components (skipn o PATH) = pre ++ m :: post /\
    first_match sys name PATH o pre r /\
    c = cursor_past PATH o (pre ++ [m]) post /\
    cursor_after PATH o c post /\
    (Z.of_nat (List.length PATH) <= INT_MAX ->
     r = candidate_path name m /\
     Forall (fun x => is_executable sys (candidate_path name x) = false) pre).
Proof.
  remember (List.length PATH - o)%nat as n eqn:Hn.
  revert o st Hn. induction n as [n IH] using lt_wf_ind. intros o st Hn.
  rewrite find_loop_eq. cbv zeta.
  pose proof (built_at_candidate PATH o st) as Hc.
  pose proof (candidate_bounded PATH o st) as Hcb.
  pose proof (next_cursor_after PATH o) as Hnext.
  destruct (candidate name _ _ st) as [p st1]. cbn [fst] in Hc, Hcb.
  pose proof (file_is_executable_fst sys p st1) as Hp.
  destruct (file_is_executable sys p st1) as [[|] st2]; cbn [fst] in Hp.
  - intros [= <- <- <-].
    exists [], (firstn (span ":" (skipn o PATH)) (skipn o PATH)).
    eexists. split; [apply components_span|].
    split.
    { unfold first_match, component_start, list_sum.
      cbn [map fold_right List.length]. rewrite Nat.add_0_r.
      split; [now symmetry|]. split; [congruence|].
      intros k Hk. lia. }
    split.
    { unfold next_cursor, deref, strchrnul, str_at, cursor_past.
      cbn [buf off app]. rewrite nth_error_skipn_add.
      destruct (nth_error PATH (o + span ":" (skipn o PATH))) eqn:E;
        [|reflexivity].
      pose proof (components_not_nil
                    (skipn (span ":" (skipn o PATH) + 1) (skipn o PATH)))
        as Hne.
      destruct (components _); [congruence|].
      unfold component_start, list_sum. cbn [map fold_right].
      rewrite length_first_component. do 2 f_equal. lia. }
    split; [exact Hnext|].
    intros Hb. split; [now apply Hcb|constructor].
  - unfold deref, strchrnul, str_at in *. cbn [buf off] in *.
    rewrite <- nth_error_skipn_add.
    rewrite (components_span (skipn o PATH)).
    destruct (nth_error (skipn o PATH) (span ":" (skipn o PATH))) eqn:E;
      [|discriminate].
    intros H.
    assert (Hlt : (span ":" (skipn o PATH) < List.length (skipn o PATH))%nat).
    { apply nth_error_Some. congruence. }
    rewrite length_skipn in Hlt.
    apply (fun Hm => IH _ Hm _ _ eq_refl) in H; [|lia].
    destruct H as (pre & m & post & Hsplit & (Hr & Hx & Hpre) & Hcur
                   & Hafter & Hcand).
    rewrite skipn_skipn_add, Nat.add_assoc.
    set (m0 := firstn (span ":" (skipn o PATH)) (skipn o PATH)) in *.
    assert (Hlen : List.length m0 = span ":" (skipn o PATH))
      by apply length_first_component.
    exists (m0 :: pre), m, post.
    split; [cbn; now rewrite Hsplit|]. split.
    { unfold first_match. rewrite component_start_cons, Hlen.
      split; [exact Hr|]. split; [exact Hx|].
      intros [|k] Hk.
      - unfold component_start, list_sum. cbn [firstn map fold_right].
        rewrite Nat.add_0_r. congruence.
      - cbn [firstn]. rewrite component_start_cons, Hlen.
        apply Hpre. cbn [List.length] in Hk. lia. }
    split.
    { rewrite Hcur. unfold cursor_past. destruct post; [reflexivity|].
      cbn [app]. now rewrite component_start_cons, Hlen. }
    split; [eapply cursor_after_mono; [|exact Hafter]; lia|].
    intros Hb. destruct (Hcand Hb) as [-> HF]. split; [reflexivity|].
    constructor; [|exact HF]. rewrite <- Hcb by exact Hb. congruence.
Qed.

Lemma app_same_length {A : Type} (a b u v : list A) :
  a ++ u = b ++ v -> List.length a = List.length b -> a = b /\ u = v.
Proof.
  revert b. induction a as [|x a IH]; intros [|y b]; cbn; try discriminate.
  - now split.
  - intros [= -> H] [= Hl]. destruct (IH _ H Hl) as [-> ->]. now split.
Qed.

(** A path has one first match only. *)
Lemma first_match_unique PATH o pre m post pre' m' post' r r' :
  pre ++ m :: post = pre' ++ m' :: post' ->
  first_match sys name PATH o pre r ->
  first_match sys name PATH o pre' r' ->
  pre' = pre /\ m' = m /\ post' = post /\ r' = r.
Proof.
  intros Heq (Hr & Hx & Hpre) (Hr' & Hx' & Hpre').
  assert (Hfirst : forall (a b : list cstr) x y u v,
            a ++ x :: u = b ++ y :: v ->
            (List.length a < List.length b)%nat ->
            firstn (List.length a) b = a).
  { intros a b x y u v H Hl.
    apply (f_equal (firstn (List.length a))) in H.
    rewrite firstn_app, Nat.sub_diag, firstn_all in H. cbn [firstn] in H.
    rewrite app_nil_r in H. rewrite firstn_app in H.
    replace (List.length a - List.length b)%nat with O in H by lia.
    cbn [firstn] in H. now rewrite app_nil_r in H. }
  destruct (Nat.lt_trichotomy (List.length pre) (List.length pre'))
    as [Hl|[Hl|Hl]].
  - specialize (Hpre' _ Hl).
    rewrite (Hfirst _ _ _ _ _ _ Heq Hl), <- Hr in Hpre'. congruence.
  - destruct (app_same_length _ _ _ _ Heq Hl) as [<- Htl].
    injection Htl as <- <-. repeat split. congruence.
  - specialize (Hpre _ Hl). symmetry in Heq.
    rewrite (Hfirst _ _ _ _ _ _ Heq Hl), <- Hr' in Hpre. congruence.
Qed.

(** C3: after a match, [*PATHp] points just past the delimiter that ends
    the matched component [m], and is NULL exactly when [m] was the last
    one. The matched component is pinned by position: [r] is the string
    built for it, it passes the probe, the string built for every
    component before it fails, and no other split of the path has these
    properties. The components a later call with the cursor scans are
    exactly those after [m], so a second match is the first match among
    them. *)
Theorem find_executable_cursor_resumes PATH o st r c :
  fst (find_executable sys name (Some (mkptr PATH o)) st) = (Some r, c) ->
  exists pre m post,
    components (skipn o PATH) = pre ++ m :: post /\
    first_match sys name PATH o pre r /\
    (forall pre' m' post' r',
       components (skipn o PATH) = pre' ++ m' :: post' ->
       first_match sys name PATH o pre' r' ->
       pre' = pre /\ m' = m /\ post' = post /\ r' = r) /\
    c = cursor_past PATH o (pre ++ [m]) post /\
    (Z.of_nat (List.length PATH) <= INT_MAX ->
     r = candidate_path name m /\
     Forall (fun x => is_executable sys (candidate_path name x) = false)
       pre) /\
    cursor_after PATH o c post /\
    (c = None <-> post = []) /\
    forall st2 r2 c2,
      fst (find_executable sys name c st2) = (Some r2, c2) ->
      exists q pre2 m2 post2,
        c = Some q /\
        post = pre2 ++ m2 :: post2 /\
        first_match sys name PATH (off q) pre2 r2 /\
        c2 = cursor_past PATH (off q) (pre2 ++ [m2]) post2 /\
        (Z.of_nat (List.length PATH) <= INT_MAX ->
         r2 = candidate_path name m2 /\
         Forall (fun x => is_executable sys (candidate_path name x) = false)
           pre2) /\
        cursor_after PATH (off q) c2 post2.
Proof.
  unfold find_executable at 1. cbn [buf off].
  destruct (find_loop sys name PATH o st) as [[[r' c']|] st1] eqn:E;
    [|discriminate].
  intros [= -> ->]. apply find_loop_found_at in E.
  destruct E as (pre & m & post & Hsplit & Hfirst & Hpast & Hcur & Hcand).
  exists pre, m, post. split; [exact Hsplit|]. split; [exact Hfirst|].
  split.
  { intros pre' m' post' r' Hsplit' Hfirst'. rewrite Hsplit in Hsplit'.
    eapply first_match_unique; eassumption. }
  split; [exact Hpast|]. split; [exact Hcand|]. split; [exact Hcur|].
  split.
  { destruct c as [q|]; cbn in Hcur; [|tauto].
    destruct Hcur as (_ & _ & _ & <-).
    split; [discriminate|]. intros H. now apply components_not_nil in H. }
  intros st2 r2 c2. unfold find_executable.
  destruct c as [q|]; [|discriminate].
  destruct (find_loop sys name (buf q) (off q) st2) as [[[r' c']|] st3] eqn:E;
    [|discriminate].
  intros [= -> ->].
  destruct Hcur as (Hbuf & _ & _ & Hpost). unfold str_at in Hpost.
  rewrite Hbuf in *. apply find_loop_found_at in E.
  destruct E as (pre2 & m2 & post2 & Hsplit2 & Hfirst2 & Hpast2 & Hcur2
                 & Hcand2).
  exists q, pre2, m2, post2. split; [reflexivity|].
  split; [now rewrite <- Hpost|]. auto.
Qed.

(** C4, amended: with a NULL search path [find_executable] returns NULL
    and does nothing else, and [executable_exists] answers 0 with the
    process unchanged when [PATH] is unset. An empty search path is one
    empty component: the bare name is allocated and probed, and it is
    returned (the answer is 1) exactly when the probe succeeds. *)
Theorem find_executable_absent_or_empty st :
  find_executable sys name None st = ((None, None), st) /\
  (os_getenv sys (cs "PATH") = None ->
   executable_exists sys name st = (false, st)) /\
  fst (fst (find_executable sys name (Some (mkptr [] 0)) st)) =
    (if is_executable sys name then Some name else None) /\
  (exists evs,
     trace (snd (find_executable sys name (Some (mkptr [] 0)) st)) =
     trace st ++ EvAlloc name :: EvAccess name X_OK :: evs) /\
  (os_getenv sys (cs "PATH") = Some [] ->
   fst (executable_exists sys name st) = is_executable sys name).
Proof.
  assert (Hempty : forall st0,
    find_loop sys name [] 0 st0 =
    match file_is_executable sys name (log (EvAlloc name) st0) with
    | (true, st2) => (Some (name, None), st2)
    | (false, st2) => (None, log (EvFree name) st2)
    end).
  { intros st0. rewrite find_loop_eq. reflexivity. }
  split; [reflexivity|]. split.
  { intros H. unfold executable_exists, getenv. now rewrite H. }
  split.
  { unfold find_executable. cbn [buf off]. rewrite Hempty.
    rewrite <- (file_is_executable_fst sys name (log (EvAlloc name) st)).
    now destruct (file_is_executable sys name _) as [[|] st2]. }
  split.
  { unfold find_executable. cbn [buf off]. rewrite Hempty.
    unfold file_is_executable, access, stat.
    destruct (os_access sys name X_OK); cbn.
    - destruct (os_stat sys name) as [s|e]; [destruct (S_ISREG (st_mode s))|];
        cbn; rewrite <- ?app_assoc; cbn; eexists; reflexivity.
    - rewrite <- ?app_assoc; cbn; eexists; reflexivity. }
  intros H. unfold executable_exists, getenv. rewrite H.
  unfold find_executable. cbn [buf off]. rewrite Hempty.
  rewrite <- (file_is_executable_fst sys name (log (EvAlloc name) st)).
  now destruct (file_is_executable sys name _) as [[|] st2].
Qed.

(** X11: within the range of [int], the candidate built for the component
    at [o] is [component ++ "/" ++ name] when the component is not empty
    and the bare [name] when it is; the same holds of the path returned
    for the matched component. *)
Theorem find_executable_candidate_path PATH o st :
  Z.of_nat (List.length PATH) <= INT_MAX ->
  let p := mkptr PATH o in
  let built := fst (candidate name p (strchrnul p ":") st) in
  let comp := hd [] (components (str_at p)) in
  (comp <> [] -> built = comp ++ "/"%char :: name) /\
  (comp = [] -> built = name) /\
  forall r c,
    fst (find_executable sys name (Some p) st) = (Some r, c) ->
    exists pre m post,
      components (str_at p) = pre ++ m :: post /\
      (m <> [] -> r = m ++ "/"%char :: name) /\
      (m = [] -> r = name).
Proof.
  intros Hb p built comp. subst p built comp.
  assert (Hcp : forall m, (m <> [] -> candidate_path name m = m ++ "/"%char :: name)
                          /\ (m = [] -> candidate_path name m = name)).
  { intros [|a m]; split; (reflexivity || congruence). }
  rewrite candidate_bounded by exact Hb.
  unfold str_at. cbn [buf off]. rewrite components_span. cbn [hd].
  split; [apply Hcp|]. split; [apply Hcp|].
  intros r c. unfold find_executable. cbn [buf off].
  destruct (find_loop sys name PATH o st) as [[[r' c']|] st1] eqn:E;
    [|discriminate].
  intros [= -> ->]. apply find_loop_found in E.
  destruct E as (pre & m & post & Hsplit & _ & _ & Hcand).
  destruct (Hcand Hb) as [-> _].
  exists pre, m, post. rewrite <- components_span.
  split; [exact Hsplit|]. apply Hcp.
Qed.

End ResolverFacts.

(** ** The dispatcher *)

Section DispatcherFacts.

Variable sys : os.
Variable cfg : config.
Variable tab : applets.

(** C7: with applet preference on, force-noexec off and a registered
    applet that is not noexec, the first thing [BB_EXECVP] does is
    [execvp] on [bb_busybox_exec_path] with the caller's [argv]; when
    that call succeeds it is the only one, and the image that replaces the
    process is the busybox binary, not [file]. *)
Theorem BB_EXECVP_reexecs_self file argv st :
  ENABLE_FEATURE_PREFER_APPLETS cfg = true ->
  ENABLE_FEATURE_FORCE_NOEXEC cfg = false ->
  find_applet_by_name tab file >= 0 ->
  APPLET_IS_NOEXEC tab (find_applet_by_name tab file) = false ->
  (exists evs,
     trace (snd (BB_EXECVP sys cfg tab file argv st)) =
     trace st ++ EvExecvp (bb_busybox_exec_path tab) argv :: evs) /\
  (os_execvp sys (bb_busybox_exec_path tab) argv = None ->
   BB_EXECVP sys cfg tab file argv st =
   (Halt (ImageReplaced (bb_busybox_exec_path tab) argv),
    log (EvExecvp (bb_busybox_exec_path tab) argv) st)).
Proof.
  intros Hp Hf Ha Hn. unfold BB_EXECVP. rewrite Hp, Hf, Hn.
  assert (Ha' : (find_applet_by_name tab file >=? 0) = true)
    by (apply Z.geb_le; lia).
  rewrite Ha'. cbn [orb].
  unfold bind, discard, bind, execvp, ret.
  destruct (os_execvp sys (bb_busybox_exec_path tab) argv) as [e|].
  - split; [|discriminate].
    destruct (os_execvp sys file argv); cbn; rewrite <- app_assoc;
      eexists; reflexivity.
  - split; [eexists; reflexivity|reflexivity].
Qed.

(** C8, amended: with applet preference on, force-applets on and no
    registered applet of that name, [BB_EXECVP] returns [-1] with [errno]
    set to [ENOENT]; nothing else changes, so no [execvp] was made. *)
Theorem BB_EXECVP_forced_applets_enoent file argv st :
  ENABLE_FEATURE_PREFER_APPLETS cfg = true ->
  ENABLE_FEATURE_FORCE_APPLETS cfg = true ->
  find_applet_by_name tab file < 0 ->
  BB_EXECVP sys cfg tab file argv st = (Ret (-1), set_errno ENOENT st).
Proof.
  intros Hp Hf Ha. unfold BB_EXECVP. rewrite Hp, Hf.
  destruct (find_applet_by_name tab file >=? 0) eqn:E.
  - apply Z.geb_le in E. lia.
  - reflexivity.
Qed.

(** C9: [BB_EXECVP_or_die] never returns. When [BB_EXECVP] returns, the
    process dies with status 127 if [errno] is [ENOENT] and 126 otherwise,
    and the diagnostic names [argv[0]]; when [BB_EXECVP] does not return,
    neither does this. *)
Theorem BB_EXECVP_or_die_never_returns argv0 args st :
  exists h st',
    BB_EXECVP_or_die sys cfg tab (argv0 :: args) st = (Halt h, st') /\
    (forall r st1,
       BB_EXECVP sys cfg tab argv0 (argv0 :: args) st = (Ret r, st1) ->
       h = Died (if errno st1 =? ENOENT then 127 else 126)
             (cs "can't execute '" ++ argv0 ++ cs "'") /\
       (errno st1 = ENOENT -> h = Died 127
             (cs "can't execute '" ++ argv0 ++ cs "'")) /\
       (errno st1 <> ENOENT -> h = Died 126
             (cs "can't execute '" ++ argv0 ++ cs "'"))) /\
    (forall h1 st1,
       BB_EXECVP sys cfg tab argv0 (argv0 :: args) st = (Halt h1, st1) ->
       h = h1 /\ st' = st1).
Proof.
  unfold BB_EXECVP_or_die, discard, bind, ret.
  destruct (BB_EXECVP sys cfg tab argv0 (argv0 :: args) st) as [[r|h1] st1].
  - cbn. do 2 eexists. split; [reflexivity|]. split; [|discriminate].
    intros r' st1' [= <- <-]. split; [reflexivity|]. split.
    + intros ->. reflexivity.
    + intros H. apply Z.eqb_neq in H. now rewrite H.
  - do 2 eexists. split; [reflexivity|]. split; [discriminate|].
    now intros h st' [= -> ->].
Qed.

(** C10: when the re-exec of the busybox binary fails, [BB_EXECVP] goes on
    to [execvp(file, argv)] and returns what that call returns. *)
Theorem BB_EXECVP_falls_back_after_reexec file argv st e :
  ENABLE_FEATURE_PREFER_APPLETS cfg = true ->
  ENABLE_FEATURE_FORCE_NOEXEC cfg = false ->
  find_applet_by_name tab file >= 0 ->
  APPLET_IS_NOEXEC tab (find_applet_by_name tab file) = false ->
  os_execvp sys (bb_busybox_exec_path tab) argv = Some e ->
  BB_EXECVP sys cfg tab file argv st =
  execvp sys file argv
    (set_errno e (log (EvExecvp (bb_busybox_exec_path tab) argv) st)).
Proof.
  intros Hp Hf Ha Hn He. unfold BB_EXECVP. rewrite Hp, Hf, Hn.
  assert (Ha' : (find_applet_by_name tab file >=? 0) = true)
    by (apply Z.geb_le; lia).
  rewrite Ha'. cbn [orb].
  unfold bind, discard, bind, ret. unfold execvp at 1. now rewrite He.
Qed.

End DispatcherFacts.

(** * Worked examples *)

(** [PATH="/a:/b"], an executable [/b/tool] and no [/a/tool]: [tool]
    resolves to [/b/tool] and the cursor is left exhausted. *)
Example find_executable_second_component :
  fst (find_executable (Sample.with_file (cs "/b/tool") (cs "/a:/b") ENOENT)
         (cs "tool") (Some (mkptr (cs "/a:/b") 0)) Sample.start)
  = (Some (cs "/b/tool"), None).
Proof. reflexivity. Qed.

(** A directory that passes the access check is not executable. *)
Example file_is_executable_directory :
  fst (file_is_executable (Sample.with_dir (cs "/bin")) (cs "/bin")
         Sample.start) = false.
Proof. reflexivity. Qed.

(** Witness of C1: [/b/tool] found on ["/a:/b"]. *)
Lemma find_executable_returns_executable_witness :
  fst (find_executable (Sample.with_file (cs "/b/tool") (cs "/a:/b") ENOENT)
         (cs "tool") (Some (mkptr (cs "/a:/b") 0)) Sample.start)
  = (Some (cs "/b/tool"), None) /\
  forall st',
    fst (file_is_executable
           (Sample.with_file (cs "/b/tool") (cs "/a:/b") ENOENT)
           (cs "/b/tool") st') = true.
Proof.
  split; [reflexivity|].
  apply (find_executable_returns_executable
           (Sample.with_file (cs "/b/tool") (cs "/a:/b") ENOENT)
           (cs "tool") (Some (mkptr (cs "/a:/b") 0)) Sample.start
           (cs "/b/tool") None).
  reflexivity.
Defined.

(** Counterexample to C2: on ["/a"] with no [/a/tool] the resolver returns
    NULL from the final component, the cursor still points to the start
    of the path instead of being exhausted, and the next call with it
    allocates and probes [/a/tool] once more. *)
Lemma find_executable_cursor_not_exhausted :
  fst (find_executable Sample.ENOENT_everywhere (cs "tool")
         (Some (mkptr (cs "/a") 0)) Sample.start)
  = (None, Some (mkptr (cs "/a") 0)) /\
  Some (mkptr (cs "/a") 0) <> None /\
  trace (snd (find_executable Sample.ENOENT_everywhere (cs "tool")
                (Some (mkptr (cs "/a") 0))
                (snd (find_executable Sample.ENOENT_everywhere (cs "tool")
                        (Some (mkptr (cs "/a") 0)) Sample.start))))
  = [EvAlloc (cs "/a/tool"); EvAccess (cs "/a/tool") X_OK;
     EvFree (cs "/a/tool");
     EvAlloc (cs "/a/tool"); EvAccess (cs "/a/tool") X_OK;
     EvFree (cs "/a/tool")].
Proof. split; [reflexivity|]. split; [discriminate|reflexivity]. Qed.

(** Witness of C2 as amended: the same call. *)
Lemma find_executable_not_found_keeps_cursor_witness :
  fst (find_executable Sample.ENOENT_everywhere (cs "tool")
         (Some (mkptr (cs "/a") 0)) Sample.start)
  = (None, Some (mkptr (cs "/a") 0)) /\
  forall st',
    fst (find_executable Sample.ENOENT_everywhere (cs "tool")
           (Some (mkptr (cs "/a") 0)) st')
    = (None, Some (mkptr (cs "/a") 0)).
Proof.
  split; [reflexivity|]. intros st'.
  apply (find_executable_not_found_keeps_cursor
           Sample.ENOENT_everywhere (cs "tool")
           (Some (mkptr (cs "/a") 0)) Sample.start
           (Some (mkptr (cs "/a") 0))).
  reflexivity.
Defined.

(** Witness of C3: on ["/a:/b:/c"] the match [/b/tool] leaves the cursor
    at offset 6, on the component [/c]. *)
Lemma find_executable_cursor_resumes_witness :
  fst (find_executable
         (Sample.with_file (cs "/b/tool") (cs "/a:/b:/c") ENOENT)
         (cs "tool") (Some (mkptr (cs "/a:/b:/c") 0)) Sample.start)
  = (Some (cs "/b/tool"), Some (mkptr (cs "/a:/b:/c") 6)) /\
  exists pre m post,
    components (skipn 0 (cs "/a:/b:/c")) = pre ++ m :: post /\
    first_match (Sample.with_file (cs "/b/tool") (cs "/a:/b:/c") ENOENT)
      (cs "tool") (cs "/a:/b:/c") 0 pre (cs "/b/tool") /\
    Some (mkptr (cs "/a:/b:/c") 6)
    = cursor_past (cs "/a:/b:/c") 0 (pre ++ [m]) post /\
    cursor_after (cs "/a:/b:/c") 0 (Some (mkptr (cs "/a:/b:/c") 6)) post.
Proof.
  split; [reflexivity|].
  destruct (find_executable_cursor_resumes
              (Sample.with_file (cs "/b/tool") (cs "/a:/b:/c") ENOENT)
              (cs "tool") (cs "/a:/b:/c") 0 Sample.start
              (cs "/b/tool") (Some (mkptr (cs "/a:/b:/c") 6)) eq_refl)
    as (pre & m & post & Hsplit & Hfirst & _ & Hpast & _ & Hcur & _).
  exists pre, m, post. auto.
Defined.

(** Counterexample to C4: with the empty search path and an executable
    [tool] in the current directory, the resolver returns [tool] and
    the existence query answers 1. *)
Lemma find_executable_empty_path_finds_cwd :
  fst (find_executable (Sample.with_file (cs "tool") [] ENOENT)
         (cs "tool") (Some (mkptr [] 0)) Sample.start)
  = (Some (cs "tool"), None) /\
  fst (executable_exists (Sample.with_file (cs "tool") [] ENOENT)
         (cs "tool") Sample.start) = true.
Proof. split; reflexivity. Qed.

(** Witness of X11: on ["/a::/b"] the component [/a] gives [/a/tool], the
    empty component after it gives the bare [tool], and with an
    executable [tool] in the current directory that is what is returned. *)
Lemma find_executable_candidate_path_witness :
  Z.of_nat (List.length (cs "/a::/b")) <= INT_MAX /\
  fst (candidate (cs "tool") (mkptr (cs "/a::/b") 0)
         (strchrnul (mkptr (cs "/a::/b") 0) ":") Sample.start)
  = cs "/a" ++ "/"%char :: cs "tool" /\
  fst (candidate (cs "tool") (mkptr (cs "/a::/b") 3)
         (strchrnul (mkptr (cs "/a::/b") 3) ":") Sample.start)
  = cs "tool" /\
  fst (find_executable (Sample.with_file (cs "tool") [] ENOENT)
         (cs "tool") (Some (mkptr (cs "/a::/b") 0)) Sample.start)
  = (Some (cs "tool"), Some (mkptr (cs "/a::/b") 4)).
Proof.
  assert (Hb : Z.of_nat (List.length (cs "/a::/b")) <= INT_MAX)
    by (vm_compute; discriminate).
  split; [exact Hb|]. split; [|split; [|reflexivity]].
  - apply (find_executable_candidate_path
             (Sample.with_file (cs "tool") [] ENOENT) (cs "tool")
             (cs "/a::/b") 0 Sample.start Hb).
    discriminate.
  - apply (find_executable_candidate_path
             (Sample.with_file (cs "tool") [] ENOENT) (cs "tool")
             (cs "/a::/b") 3 Sample.start Hb).
    reflexivity.
Defined.

(** Witness of C7: [ls] is a registered applet and the re-exec succeeds. *)
Lemma BB_EXECVP_reexecs_self_witness :
  ENABLE_FEATURE_PREFER_APPLETS (mkconfig true false false) = true /\
  ENABLE_FEATURE_FORCE_NOEXEC (mkconfig true false false) = false /\
  find_applet_by_name Sample.registry (cs "ls") >= 0 /\
  APPLET_IS_NOEXEC Sample.registry
    (find_applet_by_name Sample.registry (cs "ls")) = false /\
  BB_EXECVP Sample.exec_succeeds (mkconfig true false false) Sample.registry
    (cs "ls") [cs "ls"; cs "-l"] Sample.start
  = (Halt (ImageReplaced (cs "/proc/self/exe") [cs "ls"; cs "-l"]),
     mkproc 0 0 [EvExecvp (cs "/proc/self/exe") [cs "ls"; cs "-l"]]).
Proof.
  assert (Ha : find_applet_by_name Sample.registry (cs "ls") >= 0)
    by (vm_compute; discriminate).
  repeat (split; [first [reflexivity | exact Ha]|]).
  apply (BB_EXECVP_reexecs_self Sample.exec_succeeds
           (mkconfig true false false) Sample.registry
           (cs "ls") [cs "ls"; cs "-l"] Sample.start
           eq_refl eq_refl Ha eq_refl).
  reflexivity.
Defined.

(** Counterexample to C8: force-applets is set but applet preference is
    not, so the registry is not consulted; [nosuch] is no applet, and
    [BB_EXECVP] calls [execvp] on it and returns with that call's
    [errno]. *)
Lemma BB_EXECVP_forced_applets_without_preference :
  ENABLE_FEATURE_FORCE_APPLETS (mkconfig false false true) = true /\
  find_applet_by_name Sample.registry (cs "nosuch") < 0 /\
  BB_EXECVP (Sample.with_file (cs "/bin/ls") [] Sample.EACCES)
    (mkconfig false false true) Sample.registry
    (cs "nosuch") [cs "nosuch"] Sample.start
  = (Ret (-1),
     mkproc Sample.EACCES 0 [EvExecvp (cs "nosuch") [cs "nosuch"]]).
Proof. repeat split. Qed.

(** Witness of C8 as amended: both switches set, [nosuch] is no applet. *)
Lemma BB_EXECVP_forced_applets_enoent_witness :
  ENABLE_FEATURE_PREFER_APPLETS (mkconfig true false true) = true /\
  ENABLE_FEATURE_FORCE_APPLETS (mkconfig true false true) = true /\
  find_applet_by_name Sample.registry (cs "nosuch") < 0 /\
  BB_EXECVP (Sample.with_file (cs "/bin/ls") [] Sample.EACCES)
    (mkconfig true false true) Sample.registry
    (cs "nosuch") [cs "nosuch"] Sample.start
  = (Ret (-1), mkproc ENOENT 0 []).
Proof.
  assert (Ha : find_applet_by_name Sample.registry (cs "nosuch") < 0)
    by reflexivity.
  repeat (split; [first [reflexivity | exact Ha]|]).
  apply (BB_EXECVP_forced_applets_enoent
           (Sample.with_file (cs "/bin/ls") [] Sample.EACCES)
           (mkconfig true false true) Sample.registry
           (cs "nosuch") [cs "nosuch"] Sample.start eq_refl eq_refl Ha).
Defined.

(** Witness of C10: the re-exec for the applet [ls] fails with [EACCES]
    and so does [execvp("ls", argv)], whose result is returned. *)
Lemma BB_EXECVP_falls_back_after_reexec_witness :
  ENABLE_FEATURE_PREFER_APPLETS (mkconfig true false false) = true /\
  ENABLE_FEATURE_FORCE_NOEXEC (mkconfig true false false) = false /\
  find_applet_by_name Sample.registry (cs "ls") >= 0 /\
  APPLET_IS_NOEXEC Sample.registry
    (find_applet_by_name Sample.registry (cs "ls")) = false /\
  os_execvp (Sample.with_file (cs "/bin/ls") [] Sample.EACCES)
    (bb_busybox_exec_path Sample.registry) [cs "ls"] = Some Sample.EACCES /\
  BB_EXECVP (Sample.with_file (cs "/bin/ls") [] Sample.EACCES)
    (mkconfig true false false) Sample.registry
    (cs "ls") [cs "ls"] Sample.start
  = (Ret (-1),
     mkproc Sample.EACCES 0
       [EvExecvp (cs "/proc/self/exe") [cs "ls"];
        EvExecvp (cs "ls") [cs "ls"]]).
Proof.
  assert (Ha : find_applet_by_name Sample.registry (cs "ls") >= 0)
    by (vm_compute; discriminate).
  repeat (split; [first [reflexivity | exact Ha]|]).
  rewrite (BB_EXECVP_falls_back_after_reexec
             (Sample.with_file (cs "/bin/ls") [] Sample.EACCES)
             (mkconfig true false false) Sample.registry
             (cs "ls") [cs "ls"] Sample.start Sample.EACCES
             eq_refl eq_refl Ha eq_refl eq_refl).
  reflexivity.
Defined.

(** * Further properties *)

(** ** Search paths and their components *)

(** Putting the components back together gives the search path. *)
Lemma join_components s : join (components s) = s.
Proof.
  induction s as [|a s IH]; [reflexivity|].
  cbn [components]. destruct (Ascii.eqb a ":") eqn:E.
  - apply Ascii.eqb_eq in E. subst a.
    pose proof (components_not_nil s) as Hn.
    destruct (components s) as [|c l]; [congruence|].
    cbn [join app] in *. now rewrite IH.
  - pose proof (components_not_nil s) as Hn.
    destruct (components s) as [|c l]; [congruence|].
    destruct l as [|c' l]; cbn [join app] in *; now rewrite <- IH.
Qed.

Lemma cstr_eqb_refl s : cstr_eqb s s = true.
Proof. unfold cstr_eqb. now destruct (list_eq_dec ascii_dec s s). Qed.

Lemma heap_after_app h a b :
  heap_after h (a ++ b) =
  match heap_after h a with
  | Some h' => heap_after h' b
  | None => None
  end.
Proof.
  revert h. induction a as [|ev a IH]; intros h; [reflexivity|].
  destruct ev; cbn; try apply IH.
  destruct (remove_first s h); [apply IH|reflexivity].
Qed.

Lemma heap_after_probe sys n h : heap_after h (probe_events sys n) = Some h.
Proof. unfold probe_events. now destruct (os_access sys n X_OK). Qed.

Section ResolverMore.

Variable sys : os.
Variable name : cstr.

Lemma file_is_executable_events n st :
  trace (snd (file_is_executable sys n st)) = trace st ++ probe_events sys n.
Proof.
  unfold file_is_executable, access, stat, probe_events.
  destruct (os_access sys n X_OK); cbn; [|reflexivity].
  destruct (os_stat sys n); cbn; now rewrite <- app_assoc.
Qed.

Lemma find_split (f : cstr -> bool) pre m post :
  Forall (fun x => f x = false) pre -> f m = true ->
  find f (pre ++ m :: post) = Some m.
Proof.
  induction 1 as [|x pre Hx _ IH]; intros Hm; cbn.
  - now rewrite Hm.
  - rewrite Hx. now apply IH.
Qed.

Lemma find_all_false (f : cstr -> bool) l :
  Forall (fun x => f x = false) l -> find f l = None.
Proof. induction 1 as [|x l Hx _ IH]; cbn; [|rewrite Hx]; trivial. Qed.

Lemma filter_none (f : cstr -> bool) l :
  Forall (fun x => f x = false) l -> filter f l = [].
Proof. induction 1 as [|x l Hx _ IH]; cbn; [|rewrite Hx]; trivial. Qed.

Lemma Forall_map_cand (P : cstr -> Prop) l :
  Forall (fun x => P (candidate_path name x)) l ->
  Forall P (map (candidate_path name) l).
Proof. induction 1; cbn; constructor; trivial. Qed.

(** X1: within the range of [int], [find_executable] returns the
    Candidate Path of the leftmost component that passes the probe, and
    NULL when none does. *)
Theorem find_executable_leftmost p st :
  Z.of_nat (List.length (buf p)) <= INT_MAX ->
  fst (fst (find_executable sys name (Some p) st)) =
  find (is_executable sys) (map (candidate_path name) (components (str_at p))).
Proof.
  intros Hb. unfold find_executable, str_at.
  destruct (find_loop sys name (buf p) (off p) st) as [[[r c]|] st1] eqn:E;
    cbn [fst].
  - apply find_loop_found in E.
    destruct E as (pre & m & post & -> & Hx & _ & Hcand).
    destruct (Hcand Hb) as [-> HF].
    rewrite map_app. cbn [map]. symmetry.
    apply find_split; [now apply Forall_map_cand|exact Hx].
  - symmetry. apply find_all_false, Forall_map_cand.
    eapply find_loop_not_found; eassumption.
Qed.

(** X2: within the range of [int], a call splits the matches its cursor
    still had to give into the one it returns and those the cursor it
    leaves has to give; it returns NULL only when there was none. *)
Theorem find_executable_enumerates p st :
  Z.of_nat (List.length (buf p)) <= INT_MAX ->
  matches_from sys name (Some p) =
  match fst (find_executable sys name (Some p) st) with
  | (Some r, c) => r :: matches_from sys name c
  | (None, _) => []
  end.
Proof.
  intros Hb. unfold find_executable, matches_from at 1, matches, str_at.
  destruct (find_loop sys name (buf p) (off p) st) as [[[r c]|] st1] eqn:E;
    cbn [fst].
  - apply find_loop_found in E.
    destruct E as (pre & m & post & -> & Hx & Hcur & Hcand).
    destruct (Hcand Hb) as [-> HF].
    rewrite map_app, filter_app. cbn [map filter]. rewrite Hx.
    rewrite filter_none by now apply Forall_map_cand.
    cbn [app]. f_equal. unfold matches_from, matches.
    destruct c as [q|]; cbn in Hcur.
    + now destruct Hcur as (_ & _ & _ & ->).
    + now subst post.
  - apply filter_none, Forall_map_cand.
    eapply find_loop_not_found; eassumption.
Qed.

(** X3: when the value of [PATH], if it is set, fits the range of [int],
    [executable_exists] answers 1 exactly when [PATH] is set and the
    Candidate Path of one of its components passes the probe. *)
Theorem executable_exists_iff st :
  (forall s, os_getenv sys (cs "PATH") = Some s ->
             Z.of_nat (List.length s) <= INT_MAX) ->
  fst (executable_exists sys name st) = true <->
  exists s c,
    os_getenv sys (cs "PATH") = Some s /\
    In c (components s) /\
    is_executable sys (candidate_path name c) = true.
Proof.
  intros Hb. unfold executable_exists, getenv.
  destruct (os_getenv sys (cs "PATH")) as [s|] eqn:Hs.
  - pose proof (find_executable_leftmost (mkptr s 0) st (Hb s eq_refl)) as H.
    unfold str_at in H. cbn [buf off skipn] in H.
    destruct (find_executable sys name (Some (mkptr s 0)) st)
      as [[ret c] st1]. cbn [fst] in *. subst ret.
    destruct (find _ _) as [r|] eqn:E; cbn [fst]; split.
    + intros _. apply find_some in E. destruct E as [Hin Hx].
      apply in_map_iff in Hin. destruct Hin as (c0 & <- & Hin).
      now exists s, c0.
    + reflexivity.
    + discriminate.
    + intros (s' & c0 & [= <-] & Hin & Hx).
      eapply find_none in E; [|apply in_map; exact Hin]. congruence.
  - cbn. split; [discriminate|]. now intros (s & c & [=] & _).
Qed.

(** The calls of a scan leave on the heap the string it returns, and
    nothing else that was not there. *)
Lemma find_loop_heap PATH o st :
  exists d,
    trace (snd (find_loop sys name PATH o st)) = trace st ++ d /\
    forall h,
      heap_after h d =
      Some match fst (find_loop sys name PATH o st) with
           | Some (r, _) => r :: h
           | None => h
           end.
Proof.
  remember (List.length PATH - o)%nat as n eqn:Hn.
  revert o st Hn. induction n as [n IH] using lt_wf_ind. intros o st Hn.
  rewrite find_loop_eq. cbv zeta.
  assert (Hc : exists p,
    candidate name (mkptr PATH o) (strchrnul (mkptr PATH o) ":") st
      = (p, log (EvAlloc p) st)).
  { unfold candidate, xasprintf_dir_name, xstrdup.
    destruct (negb _); eexists; reflexivity. }
  destruct Hc as (p & ->).
  pose proof (file_is_executable_events p (log (EvAlloc p) st)) as Hev.
  destruct (file_is_executable sys p (log (EvAlloc p) st)) as [b st2].
  cbn [snd log trace] in Hev. rewrite <- app_assoc in Hev.
  destruct b.
  - exists ([EvAlloc p] ++ probe_events sys p). split; [exact Hev|].
    intros h. cbn [app heap_after fst]. apply heap_after_probe.
  - destruct (deref _) eqn:E.
    + unfold deref, strchrnul, str_at in *. cbn [buf off] in *.
      assert (o + span ":" (skipn o PATH) < List.length PATH)%nat.
      { apply nth_error_Some. congruence. }
      destruct (fun Hm => IH _ Hm (o + span ":" (skipn o PATH) + 1)%nat
                  (free (Some p) st2) eq_refl) as (d & Hd & Hh); [lia|].
      exists (([EvAlloc p] ++ probe_events sys p) ++ [EvFree p] ++ d).
      split.
      * rewrite Hd. cbn [free log trace]. rewrite Hev.
        now rewrite <- !app_assoc.
      * intros h. rewrite !heap_after_app. cbn [heap_after].
        rewrite heap_after_probe. cbn [app heap_after remove_first].
        rewrite cstr_eqb_refl. apply Hh.
    + exists (([EvAlloc p] ++ probe_events sys p) ++ [EvFree p]).
      split.
      * cbn [snd free log trace]. rewrite Hev. now rewrite <- !app_assoc.
      * intros h. rewrite !heap_after_app. cbn [heap_after].
        rewrite heap_after_probe. cbn [heap_after remove_first fst].
        now rewrite cstr_eqb_refl.
Qed.

(** X4: [find_executable] frees every string it allocated except the one
    it returns, and frees nothing else: its calls take a heap [h] to
    [r :: h] when it returns [r] and back to [h] when it returns NULL.
    [executable_exists] frees that string too and leaves the heap as it
    found it. *)
Theorem find_executable_no_leak PATHp st :
  (exists d,
     trace (snd (find_executable sys name PATHp st)) = trace st ++ d /\
     forall h,
       heap_after h d =
       Some match fst (fst (find_executable sys name PATHp st)) with
            | Some r => r :: h
            | None => h
            end) /\
  (exists d,
     trace (snd (executable_exists sys name st)) = trace st ++ d /\
     forall h, heap_after h d = Some h).
Proof.
  assert (Hfe : forall P,
    exists d,
     trace (snd (find_executable sys name P st)) = trace st ++ d /\
     forall h,
       heap_after h d =
       Some match fst (fst (find_executable sys name P st)) with
            | Some r => r :: h
            | None => h
            end).
  { intros [p|]; unfold find_executable.
    - destruct (find_loop_heap (buf p) (off p) st) as (d & Hd & Hh).
      exists d.
      destruct (find_loop sys name (buf p) (off p) st) as [[[r c]|] st1];
        cbn [fst snd] in *; split; trivial.
    - exists []. cbn. now rewrite app_nil_r. }
  split; [apply Hfe|].
  unfold executable_exists.
  destruct (Hfe (getenv sys (cs "PATH"))) as (d & Hd & Hh).
  destruct (find_executable sys name (getenv sys (cs "PATH")) st)
    as [[ret c] st1]. cbn [fst snd] in *.
  destruct ret as [r|]; cbn [free snd].
  - exists (d ++ [EvFree r]). split.
    + cbn [log trace]. rewrite Hd. now rewrite app_assoc.
    + intros h. rewrite heap_after_app, Hh. cbn.
      now rewrite cstr_eqb_refl.
  - exists d. split; [exact Hd|exact Hh].
Qed.

(** X5: within the range of [int], the library calls [find_executable]
    makes are those of a left-to-right scan of the components: each
    Candidate Path is allocated, tested with [access] and, only if that
    succeeds, [stat], then freed before the next one is built; the scan
    stops at the first match. *)
Theorem find_executable_calls p st :
  Z.of_nat (List.length (buf p)) <= INT_MAX ->
  trace (snd (find_executable sys name (Some p) st)) =
  trace st ++ scan_events sys name (components (str_at p)).
Proof.
  intros Hb.
  assert (H : forall n o st0, n = (List.length (buf p) - o)%nat ->
    trace (snd (find_loop sys name (buf p) o st0)) =
    trace st0 ++ scan_events sys name (components (skipn o (buf p)))).
  { induction n as [n IH] using lt_wf_ind. intros o st0 Hn.
    rewrite find_loop_eq. cbv zeta.
    pose proof (candidate_bounded name (buf p) o st0 Hb) as Hc.
    assert (Hc' : exists c,
      candidate name (mkptr (buf p) o) (strchrnul (mkptr (buf p) o) ":") st0
        = (c, log (EvAlloc c) st0)).
    { unfold candidate, xasprintf_dir_name, xstrdup.
      destruct (negb _); eexists; reflexivity. }
    destruct Hc' as (c & Hc'). rewrite Hc' in *. cbn [fst] in Hc.
    pose proof (file_is_executable_events c (log (EvAlloc c) st0)) as Hev.
    pose proof (file_is_executable_fst sys c (log (EvAlloc c) st0)) as Hp.
    destruct (file_is_executable sys c (log (EvAlloc c) st0)) as [b st2].
    cbn [fst snd log trace] in Hev, Hp. rewrite <- app_assoc in Hev.
    rewrite (components_span (skipn o (buf p))). cbn [scan_events].
    rewrite <- Hc, <- Hp.
    destruct b.
    - cbn [snd]. rewrite Hev. now rewrite app_nil_r.
    - unfold deref, strchrnul, str_at in *. cbn [buf off] in *.
      rewrite <- nth_error_skipn_add.
      destruct (nth_error (skipn o (buf p)) (span ":" (skipn o (buf p))))
        eqn:E.
      + assert (Hlt : (span ":" (skipn o (buf p))
                       < List.length (skipn o (buf p)))%nat).
        { apply nth_error_Some. congruence. }
        rewrite length_skipn in Hlt.
        rewrite (fun Hm => IH _ Hm (o + span ":" (skipn o (buf p)) + 1)%nat
                   (free (Some c) st2) eq_refl) by lia.
        cbn [free log trace]. rewrite Hev.
        rewrite skipn_skipn_add, Nat.add_assoc.
        now rewrite <- !app_assoc.
      + cbn [snd free log trace scan_events]. rewrite Hev.
        now rewrite <- !app_assoc. }
  unfold find_executable, str_at.
  specialize (H _ (off p) st eq_refl).
  now destruct (find_loop sys name (buf p) (off p) st) as [[[r c]|] st1].
Qed.

End ResolverMore.

(** ** More on the dispatcher *)

Section DispatcherMore.

Variable sys : os.
Variable cfg : config.
Variable tab : applets.

(** Every way through [BB_EXECVP]: the switches, the registry's answer
    and the outcome of the two [execvp] calls. *)
Ltac dispatch_cases file argv :=
  unfold BB_EXECVP, discard, bind, ret, execvp, run_noexec_applet_and_exit,
    assign_errno;
  destruct (ENABLE_FEATURE_PREFER_APPLETS cfg);
  [ destruct (find_applet_by_name tab file >=? 0) eqn:Happlet;
    [ destruct (ENABLE_FEATURE_FORCE_NOEXEC cfg);
      [ | destruct (APPLET_IS_NOEXEC tab (find_applet_by_name tab file));
          [ | destruct (os_execvp sys (bb_busybox_exec_path tab) argv)
                eqn:Hself;
              [ destruct (os_execvp sys file argv) eqn:Hfile | ] ] ]
    | destruct (ENABLE_FEATURE_FORCE_APPLETS cfg);
      [ | destruct (os_execvp sys file argv) eqn:Hfile ] ]
  | destruct (os_execvp sys file argv) eqn:Hfile ];
  cbn [orb fst snd log set_errno trace errno xfunc_error_retval].

(** X6: [BB_EXECVP] returns nothing but [-1], and leaves
    [xfunc_error_retval] alone. When it returns, either its last call was
    an [execvp(file, argv)] that failed and [errno] is that failure's, or
    it made no call at all: force-applets rejected a name that is no
    applet and [errno] is [ENOENT]. *)
Theorem BB_EXECVP_returns_failure file argv st r st' :
  BB_EXECVP sys cfg tab file argv st = (Ret r, st') ->
  r = -1 /\
  xfunc_error_retval st' = xfunc_error_retval st /\
  ((os_execvp sys file argv = Some (errno st') /\
    exists evs, trace st' = trace st ++ evs ++ [EvExecvp file argv]) \/
   (ENABLE_FEATURE_PREFER_APPLETS cfg = true /\
    ENABLE_FEATURE_FORCE_APPLETS cfg = true /\
    find_applet_by_name tab file < 0 /\
    st' = set_errno ENOENT st)).
Proof.
  dispatch_cases file argv; intros [= <- <-]; cbn.
  all: split; [reflexivity|]; split; [reflexivity|].
  - left. split; [reflexivity|].
    exists [EvExecvp (bb_busybox_exec_path tab) argv].
    now rewrite <- app_assoc.
  - right. repeat split. rewrite Z.geb_leb in Happlet.
    apply Z.leb_gt in Happlet. lia.
  - left. split; [reflexivity|]. now exists [].
  - left. split; [reflexivity|]. now exists [].
Qed.

(** X7: [BB_EXECVP] makes at most two [execvp] calls, always with the
    caller's [argv]: on the busybox binary first when it makes two, on
    [file] last. It makes none exactly when applet preference is on and
    either the name is an applet to run in-process or it is no applet
    and force-applets is on. *)
Theorem BB_EXECVP_exec_attempts file argv st :
  exists evs,
    trace (snd (BB_EXECVP sys cfg tab file argv st)) = trace st ++ evs /\
    (evs = [] \/
     evs = [EvExecvp file argv] \/
     evs = [EvExecvp (bb_busybox_exec_path tab) argv] \/
     evs = [EvExecvp (bb_busybox_exec_path tab) argv; EvExecvp file argv]) /\
    (evs = [] <->
     ENABLE_FEATURE_PREFER_APPLETS cfg = true /\
     if find_applet_by_name tab file >=? 0
     then ENABLE_FEATURE_FORCE_NOEXEC cfg
          || APPLET_IS_NOEXEC tab (find_applet_by_name tab file) = true
     else ENABLE_FEATURE_FORCE_APPLETS cfg = true).
Proof.
  dispatch_cases file argv.
  all: rewrite <- ?app_assoc; cbn [app].
  all: try (exists []; rewrite app_nil_r; split; [reflexivity|];
            split; [now left|]; split; [now split|reflexivity]).
  all: eexists; (split; [reflexivity|]);
    (split; [intuition reflexivity|]);
    (split; [discriminate|]); intros [? ?]; discriminate.
Qed.

(** X8: [BB_EXECVP_or_die] ends in one of four ways, the argument vector
    untouched in each: the image of [argv[0]] or of the busybox binary
    replaces the process, the applet of that name runs in-process, or
    the process dies with status 126 or 127 left in
    [xfunc_error_retval], 127 exactly when [errno] is [ENOENT]. *)
Theorem BB_EXECVP_or_die_outcomes argv0 args st :
  exists h st',
    BB_EXECVP_or_die sys cfg tab (argv0 :: args) st = (Halt h, st') /\
    (h = ImageReplaced argv0 (argv0 :: args) \/
     h = ImageReplaced (bb_busybox_exec_path tab) (argv0 :: args) \/
     (h = AppletRan (find_applet_by_name tab argv0) argv0 (argv0 :: args) /\
      st' = st) \/
     exists status,
       h = Died status (cs "can't execute '" ++ argv0 ++ cs "'") /\
       (status = 126 \/ status = 127) /\
       xfunc_error_retval st' = status /\
       (status = 127 <-> errno st' = ENOENT)).
Proof.
  assert (Hdie : forall e,
    exists status, (if e =? ENOENT then 127 else 126) = status /\
      (status = 126 \/ status = 127) /\ (status = 127 <-> e = ENOENT)).
  { intros e. destruct (e =? ENOENT) eqn:E; eexists; split; try reflexivity.
    - apply Z.eqb_eq in E. intuition.
    - apply Z.eqb_neq in E. intuition discriminate. }
  unfold BB_EXECVP_or_die, discard at 1, bind at 1 2.
  dispatch_cases argv0 (argv0 :: args).
  all: unfold bind, ret, get_errno, assign_xfunc_error_retval,
         bb_perror_msg_and_die;
    cbn [errno xfunc_error_retval set_xfunc_error_retval set_errno log trace].
  all: do 2 eexists; (split; [reflexivity|]).
  all: try (now left).
  all: try (right; now left).
  all: try (right; right; left; now split).
  all: right; right; right;
    match goal with
    | |- context [Died (if ?e =? ENOENT then _ else _)] =>
        destruct (Hdie e) as (status & -> & H1 & H2)
    end; exists status; cbn; auto.
Qed.

(** X9: for a name that is not dispatched to an applet (applet preference
    is off, or the name is no applet and force-applets is off),
    [BB_EXECVP_or_die] makes the single call [execvp(argv[0], argv)]:
    the process becomes that program, or dies with status 127 when the
    call fails with [ENOENT] and 126 when it fails otherwise. *)
Theorem BB_EXECVP_or_die_external argv0 args st :
  ENABLE_FEATURE_PREFER_APPLETS cfg = false \/
  (find_applet_by_name tab argv0 < 0 /\
   ENABLE_FEATURE_FORCE_APPLETS cfg = false) ->
  BB_EXECVP_or_die sys cfg tab (argv0 :: args) st =
  match os_execvp sys argv0 (argv0 :: args) with
  | None =>
      (Halt (ImageReplaced argv0 (argv0 :: args)),
       log (EvExecvp argv0 (argv0 :: args)) st)
  | Some e =>
      (Halt (Died (if e =? ENOENT then 127 else 126)
               (cs "can't execute '" ++ argv0 ++ cs "'")),
       mkproc e (if e =? ENOENT then 127 else 126)
         (trace st ++ [EvExecvp argv0 (argv0 :: args)]))
  end.
Proof.
  intros H.
  assert (Hfb : BB_EXECVP sys cfg tab argv0 (argv0 :: args)
                = execvp sys argv0 (argv0 :: args)).
  { unfold BB_EXECVP. destruct H as [-> | [Ha ->]]; [reflexivity|].
    destruct (ENABLE_FEATURE_PREFER_APPLETS cfg); [|reflexivity].
    destruct (find_applet_by_name tab argv0 >=? 0) eqn:E; [|reflexivity].
    apply Z.geb_le in E. lia. }
  unfold BB_EXECVP_or_die. rewrite Hfb.
  unfold discard, bind, ret, execvp, get_errno, assign_xfunc_error_retval,
    bb_perror_msg_and_die.
  now destruct (os_execvp sys argv0 (argv0 :: args)).
Qed.

End DispatcherMore.

(** ** The environment block *)

Lemma span_free c s : ~ In c (firstn (span c s) s).
Proof.
  induction s as [|a s IH]; cbn; [tauto|].
  destruct (Ascii.eqb a c) eqn:E; cbn; [tauto|].
  intros [->|H]; [|tauto]. now rewrite Ascii.eqb_refl in E.
Qed.

(** An entry binds the name before its first ['='] and no other. *)
Lemma binds_name n e :
  ~ In "="%char n -> binds n e = true ->
  n = firstn (span "=" e) e /\ is_binding e = true.
Proof.
  unfold binds, is_binding. revert e.
  induction n as [|a n IH]; intros e Hn; cbn [app starts_with].
  - destruct e as [|b e]; [discriminate|].
    rewrite andb_true_r. intros H. apply Ascii.eqb_eq in H. subst b.
    cbn [span]. rewrite Ascii.eqb_refl. now split.
  - destruct e as [|b e]; [discriminate|].
    intros H. apply andb_true_iff in H. destruct H as [Hab H].
    apply Ascii.eqb_eq in Hab. subst b.
    cbn [span]. destruct (Ascii.eqb a "=") eqn:E.
    + apply Ascii.eqb_eq in E. subst a. cbn [In] in Hn. tauto.
    + cbn [firstn nth_error].
      destruct (IH e) as [Hf Hb]; [cbn [In] in Hn; tauto|exact H|].
      split; [now f_equal|exact Hb].
Qed.

Lemma binds_self s :
  is_binding s = true -> binds (firstn (span "=" s) s) s = true.
Proof.
  unfold binds, is_binding.
  induction s as [|a s IH]; cbn [span]; [discriminate|].
  destruct (Ascii.eqb a "=") eqn:E; cbn [firstn nth_error app starts_with].
  - intros _. now rewrite Ascii.eqb_sym, E.
  - intros H. rewrite Ascii.eqb_refl. cbn [andb]. now apply IH.
Qed.

Lemma binds_unique a b e :
  ~ In "="%char a -> ~ In "="%char b ->
  binds a e = true -> binds b e = true -> a = b.
Proof.
  intros Ha Hb H1 H2.
  apply binds_name in H1; [|exact Ha]. apply binds_name in H2; [|exact Hb].
  destruct H1 as [-> _], H2 as [-> _]. reflexivity.
Qed.

Lemma env_get_app n a b :
  env_get n (a ++ b) =
  match env_get n a with
  | Some v => Some v
  | None => env_get n b
  end.
Proof.
  induction a as [|e a IH]; cbn; [reflexivity|].
  now destruct (binds n e).
Qed.

(** What [getenv] sees after one [putenv]. *)
Lemma putenv_get n s env :
  ~ In "="%char n -> is_binding s = true ->
  env_get n (putenv s env) =
  if binds n s then Some (skipn (List.length n + 1) s) else env_get n env.
Proof.
  intros Hn Hs. unfold putenv. rewrite Hs.
  pose proof (span_free "=" s) as Hfree.
  pose proof (binds_self s Hs) as Hself.
  set (ns := firstn (span "=" s) s) in *.
  assert (Hclash : forall e, binds ns e = true -> binds n e = true ->
                             binds n s = true).
  { intros e H1 H2. now rewrite (binds_unique n ns e Hn Hfree H2 H1). }
  induction env as [|e env IH]; cbn [env_replace app].
  - cbn [env_get]. now destruct (binds n s).
  - destruct (binds ns e) eqn:Ee.
    + cbn [env_get]. destruct (binds n s) eqn:Es; [reflexivity|].
      destruct (binds n e) eqn:En; [|reflexivity].
      pose proof (Hclash e Ee En). congruence.
    + destruct (env_replace ns s env) as [r|]; cbn [env_get] in *;
        rewrite IH;
        (destruct (binds n e) eqn:En; [|reflexivity]);
        (destruct (binds n s) eqn:Es; [|reflexivity]);
        rewrite <- (binds_unique n ns s Hn Hfree Es Hself) in Ee;
        congruence.
Qed.

(** What [getenv] sees after the loop of [putenv]: the last of the new
    entries that binds the name, else what it saw before. *)
Lemma putenv_loop_get n envp env :
  ~ In "="%char n -> forallb is_binding envp = true ->
  env_get n (fold_left (fun env s => putenv s env) envp env) =
  match env_get n (rev envp) with
  | Some v => Some v
  | None => env_get n env
  end.
Proof.
  intros Hn. revert env.
  induction envp as [|s l IH]; intros env Hl; cbn; [reflexivity|].
  cbn in Hl. apply andb_true_iff in Hl. destruct Hl as [Hs Hl].
  rewrite IH by exact Hl. rewrite env_get_app.
  destruct (env_get n (rev l)); [reflexivity|].
  rewrite putenv_get by assumption. cbn.
  now destruct (binds n s).
Qed.

Section DispatcherEnvFacts.

Variable sys : environ -> os.
Variable cfg : config.
Variable tab : applets.

(** X10: [BB_EXECVPE] runs [BB_EXECVP] in an environment rebuilt from
    [envp] alone: for entries of the form ["NAME=value"], a variable has
    the value of the last entry of [envp] that binds it and is unset when
    there is none, whatever the environment held before. *)
Theorem BB_EXECVPE_environment file argv envp st env :
  forallb is_binding envp = true ->
  fst (BB_EXECVPE sys cfg tab file argv envp st env) =
    BB_EXECVP (sys (snd (BB_EXECVPE sys cfg tab file argv envp st env)))
      cfg tab file argv st /\
  (forall env',
     snd (BB_EXECVPE sys cfg tab file argv envp st env') =
     snd (BB_EXECVPE sys cfg tab file argv envp st env)) /\
  (forall n, ~ In "="%char n ->
     env_get n (snd (BB_EXECVPE sys cfg tab file argv envp st env)) =
     env_get n (rev envp)).
Proof.
  intros Hl. unfold BB_EXECVPE, clearenv. cbn [fst snd].
  split; [reflexivity|]. split; [reflexivity|].
  intros n Hn. rewrite putenv_loop_get by assumption.
  now destruct (env_get n (rev envp)).
Qed.

End DispatcherEnvFacts.

(** * More worked examples *)

(** Leading, doubled and trailing delimiters each give an empty
    component. *)
Example components_empty :
  components (cs ":/a::b:") = [cs ""; cs "/a"; cs ""; cs "b"; cs ""].
Proof. reflexivity. Qed.

(** Witness of X1: [/b/tool] and [/c/tool] both exist; the leftmost
    wins. *)
Lemma find_executable_leftmost_witness :
  Z.of_nat (List.length (buf (mkptr (cs "/a:/b:/c") 0))) <= INT_MAX /\
  fst (fst (find_executable
              (mkos (fun n _ => if cstr_eqb n (cs "/a/tool") then Fail ENOENT
                                else Ok tt)
                    (fun _ => Ok Sample.rwxr_xr_x) (fun _ => None)
                    (fun _ _ => Some ENOENT))
              (cs "tool") (Some (mkptr (cs "/a:/b:/c") 0)) Sample.start))
  = Some (cs "/b/tool").
Proof.
  assert (Hb : Z.of_nat (List.length (buf (mkptr (cs "/a:/b:/c") 0)))
               <= INT_MAX) by (vm_compute; discriminate).
  split; [exact Hb|].
  rewrite (find_executable_leftmost _ (cs "tool") (mkptr (cs "/a:/b:/c") 0)
             Sample.start Hb).
  reflexivity.
Defined.

(** Witness of X2: the same system; after [/b/tool] the cursor still has
    [/c/tool] to give. *)
Lemma find_executable_enumerates_witness :
  Z.of_nat (List.length (buf (mkptr (cs "/a:/b:/c") 0))) <= INT_MAX /\
  matches_from
    (mkos (fun n _ => if cstr_eqb n (cs "/a/tool") then Fail ENOENT
                      else Ok tt)
          (fun _ => Ok Sample.rwxr_xr_x) (fun _ => None)
          (fun _ _ => Some ENOENT))
    (cs "tool") (Some (mkptr (cs "/a:/b:/c") 0))
  = cs "/b/tool" ::
    matches_from
      (mkos (fun n _ => if cstr_eqb n (cs "/a/tool") then Fail ENOENT
                        else Ok tt)
            (fun _ => Ok Sample.rwxr_xr_x) (fun _ => None)
            (fun _ _ => Some ENOENT))
      (cs "tool") (Some (mkptr (cs "/a:/b:/c") 6)).
Proof.
  assert (Hb : Z.of_nat (List.length (buf (mkptr (cs "/a:/b:/c") 0)))
               <= INT_MAX) by (vm_compute; discriminate).
  split; [exact Hb|].
  rewrite (find_executable_enumerates _ (cs "tool")
             (mkptr (cs "/a:/b:/c") 0) Sample.start Hb).
  reflexivity.
Defined.

(** Witness of X3: [PATH="/a:/b"] and an executable [/b/tool]. *)
Lemma executable_exists_iff_witness :
  (forall s,
     os_getenv (Sample.with_file (cs "/b/tool") (cs "/a:/b") ENOENT)
       (cs "PATH") = Some s ->
     Z.of_nat (List.length s) <= INT_MAX) /\
  fst (executable_exists
         (Sample.with_file (cs "/b/tool") (cs "/a:/b") ENOENT)
         (cs "tool") Sample.start) = true /\
  exists s c,
    os_getenv (Sample.with_file (cs "/b/tool") (cs "/a:/b") ENOENT)
      (cs "PATH") = Some s /\
    In c (components s) /\
    is_executable (Sample.with_file (cs "/b/tool") (cs "/a:/b") ENOENT)
      (candidate_path (cs "tool") c) = true.
Proof.
  assert (Hb : forall s,
     os_getenv (Sample.with_file (cs "/b/tool") (cs "/a:/b") ENOENT)
       (cs "PATH") = Some s ->
     Z.of_nat (List.length s) <= INT_MAX).
  { intros s [= <-]. vm_compute. discriminate. }
  split; [exact Hb|]. split; [reflexivity|].
  apply (executable_exists_iff
           (Sample.with_file (cs "/b/tool") (cs "/a:/b") ENOENT)
           (cs "tool") Sample.start Hb).
  reflexivity.
Defined.

(** Witness of X5: on ["/a:/b"] with an executable [/b/tool],
    [/a/tool] is allocated, refused by [access] and freed, then
    [/b/tool] is allocated and passes [access] and [stat]. *)
Lemma find_executable_calls_witness :
  Z.of_nat (List.length (buf (mkptr (cs "/a:/b") 0))) <= INT_MAX /\
  trace (snd (find_executable
                (Sample.with_file (cs "/b/tool") (cs "/a:/b") ENOENT)
                (cs "tool") (Some (mkptr (cs "/a:/b") 0)) Sample.start))
  = [EvAlloc (cs "/a/tool"); EvAccess (cs "/a/tool") X_OK;
     EvFree (cs "/a/tool");
     EvAlloc (cs "/b/tool"); EvAccess (cs "/b/tool") X_OK;
     EvStat (cs "/b/tool")].
Proof.
  assert (Hb : Z.of_nat (List.length (buf (mkptr (cs "/a:/b") 0)))
               <= INT_MAX) by (vm_compute; discriminate).
  split; [exact Hb|].
  rewrite (find_executable_calls
             (Sample.with_file (cs "/b/tool") (cs "/a:/b") ENOENT)
             (cs "tool") (mkptr (cs "/a:/b") 0) Sample.start Hb).
  reflexivity.
Defined.

(** Witness of X6: [nosuch] is no applet and [execvp] fails with
    [EACCES]. *)
Lemma BB_EXECVP_returns_failure_witness :
  BB_EXECVP (Sample.with_file (cs "/bin/ls") [] Sample.EACCES)
    (mkconfig true false false) Sample.registry
    (cs "nosuch") [cs "nosuch"] Sample.start
  = (Ret (-1),
     mkproc Sample.EACCES 0 [EvExecvp (cs "nosuch") [cs "nosuch"]]) /\
  os_execvp (Sample.with_file (cs "/bin/ls") [] Sample.EACCES)
    (cs "nosuch") [cs "nosuch"] = Some Sample.EACCES /\
  xfunc_error_retval
    (mkproc Sample.EACCES 0 [EvExecvp (cs "nosuch") [cs "nosuch"]])
  = xfunc_error_retval Sample.start.
Proof.
  split; [reflexivity|].
  destruct (BB_EXECVP_returns_failure
              (Sample.with_file (cs "/bin/ls") [] Sample.EACCES)
              (mkconfig true false false) Sample.registry
              (cs "nosuch") [cs "nosuch"] Sample.start (-1)
              (mkproc Sample.EACCES 0 [EvExecvp (cs "nosuch") [cs "nosuch"]])
              eq_refl) as (_ & Hx & [[He _]|(_ & Hf & _)]).
  - split; [exact He|exact Hx].
  - discriminate Hf.
Defined.

(** Witness of X9: applet preference is off and [execvp] fails with
    [ENOENT]: status 127. *)
Lemma BB_EXECVP_or_die_external_witness :
  (ENABLE_FEATURE_PREFER_APPLETS (mkconfig false false false) = false \/
   (find_applet_by_name Sample.registry (cs "nosuch") < 0 /\
    ENABLE_FEATURE_FORCE_APPLETS (mkconfig false false false) = false)) /\
  BB_EXECVP_or_die Sample.ENOENT_everywhere (mkconfig false false false)
    Sample.registry [cs "nosuch"; cs "-x"] Sample.start
  = (Halt (Died 127 (cs "can't execute 'nosuch'")),
     mkproc ENOENT 127 [EvExecvp (cs "nosuch") [cs "nosuch"; cs "-x"]]).
Proof.
  assert (H : ENABLE_FEATURE_PREFER_APPLETS (mkconfig false false false)
              = false \/
              (find_applet_by_name Sample.registry (cs "nosuch") < 0 /\
               ENABLE_FEATURE_FORCE_APPLETS (mkconfig false false false)
               = false)) by (left; reflexivity).
  split; [exact H|].
  rewrite (BB_EXECVP_or_die_external Sample.ENOENT_everywhere
             (mkconfig false false false) Sample.registry
             (cs "nosuch") [cs "-x"] Sample.start H).
  reflexivity.
Defined.

(** Witness of X10: [A] is given twice and [HOME] was set before; the
    rebuilt environment has the last [A], has [B], and has no [HOME]. *)
Lemma BB_EXECVPE_environment_witness :
  forallb is_binding [cs "A=1"; cs "B=2"; cs "A=3"] = true /\
  env_get (cs "A")
    (snd (BB_EXECVPE (fun _ => Sample.exec_succeeds)
            (mkconfig false false false) Sample.registry
            (cs "env") [cs "env"] [cs "A=1"; cs "B=2"; cs "A=3"]
            Sample.start [cs "HOME=/root"])) = Some (cs "3") /\
  env_get (cs "HOME")
    (snd (BB_EXECVPE (fun _ => Sample.exec_succeeds)
            (mkconfig false false false) Sample.registry
            (cs "env") [cs "env"] [cs "A=1"; cs "B=2"; cs "A=3"]
            Sample.start [cs "HOME=/root"])) = None.
Proof.
  assert (Hb : forallb is_binding [cs "A=1"; cs "B=2"; cs "A=3"] = true)
    by reflexivity.
  split; [exact Hb|].
  destruct (BB_EXECVPE_environment (fun _ => Sample.exec_succeeds)
              (mkconfig false false false) Sample.registry
              (cs "env") [cs "env"] [cs "A=1"; cs "B=2"; cs "A=3"]
              Sample.start [cs "HOME=/root"] Hb) as (_ & _ & Hget).
  split.
  - rewrite (Hget (cs "A")); [reflexivity|].
    cbn. intros [H|[]]. discriminate.
  - rewrite (Hget (cs "HOME")); [reflexivity|].
    cbn. intuition discriminate.
Defined.

(** * Beyond the range of [int] *)

(** On ["/b:/c:/b"] with [/b/tool] and [/c/tool] executable, the match is
    the first [/b] and the cursor is left on [/c], at offset 3. *)
Example find_executable_repeated_component :
  fst (find_executable
         (mkos (fun _ _ => Ok tt) (fun _ => Ok Sample.rwxr_xr_x)
               (fun _ => None) (fun _ _ => Some ENOENT))
         (cs "tool") (Some (mkptr (cs "/b:/c:/b") 0)) Sample.start)
  = (Some (cs "/b/tool"), Some (mkptr (cs "/b:/c:/b") 3)).
Proof. reflexivity. Qed.

Lemma span_repeat a c n :
  Ascii.eqb a c = false -> span c (repeat a n) = n.
Proof.
  intros H. induction n as [|n IH]; cbn [repeat span]; [reflexivity|].
  now rewrite H, IH.
Qed.

Lemma components_repeat a n :
  Ascii.eqb a ":" = false -> components (repeat a n) = [repeat a n].
Proof.
  intros H. induction n as [|n IH]; cbn [repeat components]; [reflexivity|].
  now rewrite H, IH.
Qed.

(** A component of 2^32 characters: line 44 stores its length in [sz] as
    0, so lines 46-51 take it for an empty component. *)
Lemma find_executable_wrapped_length sys name n st :
  Z.of_nat n = 4294967296 ->
  hd [] (components (repeat "a"%char n)) = repeat "a"%char n /\
  repeat "a"%char n <> [] /\
  built_at name (repeat "a"%char n) 0 = name /\
  built_at name (repeat "a"%char n) 0
    <> repeat "a"%char n ++ "/"%char :: name /\
  (is_executable sys name = true ->
   fst (find_executable sys name (Some (mkptr (repeat "a"%char n) 0)) st)
   = (Some name, None)).
Proof.
  intros Hn.
  assert (Hspan : span ":" (repeat "a"%char n) = n)
    by (apply span_repeat; reflexivity).
  assert (Hcand : forall st0,
    candidate name (mkptr (repeat "a"%char n) 0)
      (strchrnul (mkptr (repeat "a"%char n) 0) ":") st0 = xstrdup name st0).
  { intros st0. unfold candidate, strchrnul, str_at. cbn [buf off skipn].
    rewrite Hspan. cbn [Nat.add Z.of_nat]. rewrite Z.sub_0_r, Hn.
    reflexivity. }
  assert (Hbuilt : built_at name (repeat "a"%char n) 0 = name).
  { unfold built_at. now rewrite Hcand. }
  split; [rewrite components_repeat by reflexivity; reflexivity|].
  split.
  { intros H. apply (f_equal (@List.length ascii)) in H.
    rewrite repeat_length in H. cbn [List.length] in H. lia. }
  split; [exact Hbuilt|]. split.
  { rewrite Hbuilt. intros H. apply (f_equal (@List.length ascii)) in H.
    rewrite length_app in H. cbn [List.length] in H. lia. }
  intros Hx. unfold find_executable. cbn [buf off].
  rewrite find_loop_eq. cbv zeta. rewrite Hcand. unfold xstrdup.
  pose proof (file_is_executable_fst sys name (log (EvAlloc name) st)) as Hp.
  destruct (file_is_executable sys name (log (EvAlloc name) st)) as [b st2].
  cbn [fst] in Hp. rewrite Hx in Hp. subst b. cbn [fst].
  unfold next_cursor, deref, strchrnul, str_at. cbn [buf off skipn].
  rewrite Hspan. cbn [Nat.add].
  replace (nth_error (repeat "a"%char n) n) with (@None ascii);
    [reflexivity|].
  symmetry. apply nth_error_None. rewrite repeat_length. lia.
Qed.

(** C5, at an input where the code departs from it: for the search path
    made of 2^32 times the character [a], a single component that is not
    empty, the Candidate Path is not [component ++ "/" ++ name]: the code
    builds the bare name [tool], and with an executable [tool] in the
    current directory [find_executable] returns it. *)
Theorem find_executable_component_length_wraps :
  hd [] (components (repeat "a"%char (Z.to_nat 4294967296)))
  = repeat "a"%char (Z.to_nat 4294967296) /\
  repeat "a"%char (Z.to_nat 4294967296) <> [] /\
  built_at (cs "tool") (repeat "a"%char (Z.to_nat 4294967296)) 0
  = cs "tool" /\
  built_at (cs "tool") (repeat "a"%char (Z.to_nat 4294967296)) 0
  <> repeat "a"%char (Z.to_nat 4294967296) ++ "/"%char :: cs "tool" /\
  fst (find_executable (Sample.with_file (cs "tool") [] ENOENT) (cs "tool")
         (Some (mkptr (repeat "a"%char (Z.to_nat 4294967296)) 0))
         Sample.start)
  = (Some (cs "tool"), None).
Proof.
  assert (Hx : is_executable (Sample.with_file (cs "tool") [] ENOENT)
                 (cs "tool") = true) by reflexivity.
  destruct (find_executable_wrapped_length
              (Sample.with_file (cs "tool") [] ENOENT) (cs "tool")
              (Z.to_nat 4294967296) Sample.start
              (Z2Nat.id 4294967296 ltac:(discriminate)))
    as (H1 & H2 & H3 & H4 & H5).
  exact (conj H1 (conj H2 (conj H3 (conj H4 (H5 Hx))))).
Qed.
